(** * agrolidarwheatrust: point-cloud ingestion and canopy metrics

    A shallow embedding of [pcd2csv.py] (header parsing, record layout,
    decoding, column selection, CSV conversion) and of
    [figures/compute-crop-parameters.py] (ground detection, height
    normalisation, percentile metrics), with the properties of the
    specification stated against these definitions.

    Conventions.
    - Python exceptions are values of [exn]; a call that may raise returns
      a [result].
    - [CropParametersFloat] is the canopy script as it runs, on binary64
      floats with the IEEE 754 operations; the properties that depend on
      the values the script computes are stated against it.
    - [CropParameters] is the same script over exact rationals [Q]; it
      carries the order properties of the percentile breakpoints and
      counts.
    - Library calls whose result is not determined by the repository (PCA
      components, the NumPy reductions over floats, [float()],
      [np.loadtxt], the type promotion of [np.vstack], the text of a NumPy
      scalar, the draws of [random.choices]) are Section variables. *)

From Stdlib Require Import String Ascii.
From Stdlib Require Import Strings.Byte.
From Stdlib Require Import DecimalString.
From Stdlib Require Import List ZArith NArith PArith QArith Qround Bool Lia.
From Stdlib Require Import Lqa Sorting.Sorted.
From Stdlib Require Floats.Floats Numbers.Cyclic.Int63.Uint63.
Import ListNotations.

Set Implicit Arguments.
Set Warnings "-inexact-float,-notation-for-abbreviation".

(** ** Exceptions and results *)

Inductive exn : Type :=
| ValueError (msg : string)
| IndexError
| KeyError
| ValidationError.

Inductive result (A : Type) : Type :=
| Ok (a : A)
| Err (e : exn).

Arguments Ok {A} a.
Arguments Err {A} e.

Definition bind {A B : Type} (r : result A) (k : A -> result B) : result B :=
  match r with
  | Ok a => k a
  | Err e => Err e
  end.

Notation "x <- r ;; k" := (bind r (fun x => k))
  (at level 61, r at next level, right associativity).

Definition is_ok {A : Type} (r : result A) : bool :=
  match r with Ok _ => true | Err _ => false end.

(** ** figures/compute-crop-parameters.py *)

Module CropParameters.

Open Scope Q_scope.

(** One row of the loaded table: X, Y, Z and intensity. *)
Record point : Type := mkPoint { pX : Q; pY : Q; pZ : Q; pI : Q }.

(** *** NumPy reductions over a 1-D array *)

Definition asum (a : list Q) : Q := fold_right Qplus 0 a.

(** [np.mean]; only called on non-empty arrays by the code. *)
Definition mean (a : list Q) : Q := asum a / inject_Z (Z.of_nat (length a)).

Definition Qmin' (x y : Q) : Q := if Qle_bool x y then x else y.
Definition Qmax' (x y : Q) : Q := if Qle_bool x y then y else x.

(** [np.min] / [np.max] of a non-empty array given as head and tail. *)
Definition amin (x : Q) (a : list Q) : Q := fold_left Qmin' a x.
Definition amax (x : Q) (a : list Q) : Q := fold_left Qmax' a x.

(** *** [np.percentile], default (linear interpolation) method

    With [n] the length and [s] the sorted data, the virtual index is
    [q/100 * (n-1)]; the result interpolates linearly between the two
    neighbouring order statistics, the upper neighbour clipped at [n-1].
    The code calls it on non-empty arrays only. *)

Fixpoint insert (x : Q) (s : list Q) : list Q :=
  match s with
  | [] => [x]
  | y :: s' => if Qle_bool x y then x :: s else y :: insert x s'
  end.

Definition sort (a : list Q) : list Q := fold_right insert [] a.

Definition percentile (a : list Q) (q : Q) : Q :=
  let s := sort a in
  let virtual_index := (q / 100) * (inject_Z (Z.of_nat (length a)) - 1) in
  let previous := Qfloor virtual_index in
  let gamma := virtual_index - inject_Z previous in
  let lo := nth (Z.to_nat previous) s 0 in
  let hi := nth (Z.to_nat (previous + 1)) s lo in
  lo + (hi - lo) * gamma.

(** Boolean masks [a >= t] and their population count [np.sum(a >= t)]. *)
Definition ge_mask (t : Q) (z : Q) : bool := Qle_bool t z.
Definition count_ge (a : list Q) (t : Q) : nat := length (filter (ge_mask t) a).

Section Pipeline.

(** The PCA of scikit-learn yields floating-point components; they are kept
    abstract.  [Real] is the type of such numbers, [pca_last_component]
    is [pca.components_[-1]] after [pca.fit(points)], and [neg_dot n c]
    is [-np.dot(n, c)]. *)
Variable Real : Type.
Variable pca_last_component : list (Q * Q * Q) -> Real * Real * Real.
Variable neg_dot : Real * Real * Real -> Q * Q * Q -> Real.

Definition xyz (p : point) : Q * Q * Q := (pX p, pY p, pZ p).

Definition fit_plane (points : list point)
  : result ((Real * Real * Real) * Real * Q) :=
  if (length points <? 3)%nat then
    Err (ValueError "Not enough points to fit a plane")
  else
    let normal := pca_last_component (map xyz points) in
    let point_on_plane :=
      (mean (map pX points), mean (map pY points), mean (map pZ points)) in
    let d := neg_dot normal point_on_plane in
    Ok (normal, d, mean (map pZ points)).

(** Step 2 of [calculate_plant_height_and_plot], on a non-empty cloud
    [p0 :: ps]. *)
Definition ground_threshold (p0 : point) (ps : list point) : Q :=
  let lowest_z := amin (pZ p0) (map pZ ps) in
  let x_range := amax (pX p0) (map pX ps) - amin (pX p0) (map pX ps) in
  lowest_z + (231 # 1000) * x_range.

Definition ground_points (points : list point) : list point :=
  match points with
  | [] => []
  | p0 :: ps =>
      filter (fun p => Qle_bool (pZ p) (ground_threshold p0 ps)) points
  end.

Definition selected_ground_points (points : list point) : list point :=
  let gp := ground_points points in
  let ground_z_90th := percentile (map pZ gp) 90 in
  filter (fun p => ge_mask ground_z_90th (pZ p)) gp.

Definition estimate_ground (points : list point)
  : result ((Real * Real * Real) * Real * Q) :=
  match points with
  | [] =>
      (* np.min of an empty array *)
      Err (ValueError
             "zero-size array to reduction operation minimum which has no identity")
  | _ :: _ =>
      if (length (ground_points points) <? 3)%nat then
        Err (ValueError "Insufficient ground points to fit plane.")
      else fit_plane (selected_ground_points points)
  end.

(** The quantities printed by the function. *)
Record report : Type := mkReport {
  n_above_015 : nat;
  p50 : Q; p60 : Q; p70 : Q; p80 : Q; p90 : Q;
  count_top_50 : nat; count_top_60 : nat; count_top_70 : nat;
  count_top_80 : nat; count_top_90 : nat;
  avg_int_50 : Q; avg_int_60 : Q; avg_int_70 : Q;
  avg_int_80 : Q; avg_int_90 : Q;
  bounding_box_area : Q;
  bounding_box_volume : Q;
  p99_top_z : Q
}.

Inductive stdout : Type :=
| NoPointsAbove015        (* "No points above 0.15 m. Exiting." *)
| Printed (r : report).

Definition dark_threshold : Q := 15 # 100.

(** [Z -= ground_level] followed by the mask [Z >= 0] applied to X, Y, Z
    and the intensities alike. *)
Definition normalize (ground_level : Q) (points : list point) : list point :=
  map (fun p => mkPoint (pX p) (pY p) (pZ p - ground_level) (pI p)) points.

Definition above_plane (ground_level : Q) (points : list point) : list point :=
  filter (fun p => ge_mask 0 (pZ p)) (normalize ground_level points).

Definition above_015 (ground_level : Q) (points : list point) : list point :=
  filter (fun p => ge_mask dark_threshold (pZ p))
         (above_plane ground_level points).

Definition avg_int (sel : list point) (t : Q) : Q :=
  if (0 <? count_ge (map pZ sel) t)%nat
  then mean (map pI (filter (fun p => ge_mask t (pZ p)) sel))
  else 0.

Definition bounding_box (sel : list point) (p50' : Q) : Q * Q :=
  match filter (fun p => ge_mask p50' (pZ p)) sel with
  | q0 :: ((_ :: _) as qs) =>
      let width := amax (pX q0) (map pX qs) - amin (pX q0) (map pX qs) in
      let length := amax (pY q0) (map pY qs) - amin (pY q0) (map pY qs) in
      let area := width * length in
      let prism_height := amax (pZ q0) (map pZ qs) - p50' in
      let prism_height := if Qlt_le_dec prism_height 0 then 0 else prism_height in
      (area, area * prism_height)
  | _ => (0, 0)
  end.

Definition metrics (ground_level : Q) (points : list point) : report :=
  let sel := above_015 ground_level points in
  let zs := map pZ sel in
  let p50' := percentile zs 50 in
  let bb := bounding_box sel p50' in
  {| n_above_015 := length sel;
     p50 := p50';
     p60 := percentile zs 60;
     p70 := percentile zs 70;
     p80 := percentile zs 80;
     p90 := percentile zs 90;
     count_top_50 := count_ge zs p50';
     count_top_60 := count_ge zs (percentile zs 60);
     count_top_70 := count_ge zs (percentile zs 70);
     count_top_80 := count_ge zs (percentile zs 80);
     count_top_90 := count_ge zs (percentile zs 90);
     avg_int_50 := avg_int sel p50';
     avg_int_60 := avg_int sel (percentile zs 60);
     avg_int_70 := avg_int sel (percentile zs 70);
     avg_int_80 := avg_int sel (percentile zs 80);
     avg_int_90 := avg_int sel (percentile zs 90);
     bounding_box_area := fst bb;
     bounding_box_volume := snd bb;
     p99_top_z := percentile (map pZ (above_plane ground_level points)) (995 # 10) |}.

(** The function's printed output and return value. *)
Definition calculate_plant_height_and_plot (points : list point)
  : result (stdout * Q) :=
  plane <- estimate_ground points ;;
  let '(_, _, ground_level) := plane in
  match above_015 ground_level points with
  | [] => Ok (NoPointsAbove015, 0)
  | _ :: _ =>
      let r := metrics ground_level points in
      Ok (Printed r, p99_top_z r)
  end.

End Pipeline.

End CropParameters.

(** ** pcd2csv.py *)

Module Pcd2Csv.

Open Scope string_scope.

(** *** Text primitives of Python used by the parser

    Header text is taken to be ASCII: a decoded line is the string of its
    bytes, and a byte above 127 is neither a word nor a space character. *)

Definition is_space (c : ascii) : bool :=
  let n := nat_of_ascii c in
  ((9 <=? n) && (n <=? 13) || (28 <=? n) && (n <=? 32))%nat.

Definition is_digit (c : ascii) : bool :=
  let n := nat_of_ascii c in ((48 <=? n) && (n <=? 57))%nat.

Definition is_upper (c : ascii) : bool :=
  let n := nat_of_ascii c in ((65 <=? n) && (n <=? 90))%nat.

Definition is_lower (c : ascii) : bool :=
  let n := nat_of_ascii c in ((97 <=? n) && (n <=? 122))%nat.

(** [\w] *)
Definition is_word (c : ascii) : bool :=
  is_digit c || is_upper c || is_lower c || Ascii.eqb c "_".

(** The character class of the second group of [HEADER_PATTERN]. *)
Definition is_value_char (c : ascii) : bool :=
  is_word c || is_space c || Ascii.eqb c "." || Ascii.eqb c "-"
  || Ascii.eqb c "?" || Ascii.eqb c "+" || Ascii.eqb c "*".

Definition lower_char (c : ascii) : ascii :=
  if is_upper c then ascii_of_nat (nat_of_ascii c + 32) else c.

Fixpoint lower (s : string) : string :=
  match s with
  | EmptyString => EmptyString
  | String c s' => String (lower_char c) (lower s')
  end.

Definition startswith (s prefix : string) : bool := String.prefix prefix s.

Fixpoint lstrip (s : string) : string :=
  match s with
  | EmptyString => EmptyString
  | String c s' => if is_space c then lstrip s' else s
  end.

Fixpoint rstrip (s : string) : string :=
  match s with
  | EmptyString => EmptyString
  | String c s' =>
      match rstrip s' with
      | EmptyString => if is_space c then EmptyString else String c EmptyString
      | r => String c r
      end
  end.

Definition strip (s : string) : string := rstrip (lstrip s).

(** [str.split()]: the maximal runs of non-space characters.  The boolean
    tells whether the string starts inside a token. *)
Fixpoint split_aux (s : string) : bool * list string :=
  match s with
  | EmptyString => (false, [])
  | String c s' =>
      let (intok, toks) := split_aux s' in
      if is_space c then (false, toks)
      else if intok then
        match toks with
        | t :: ts => (true, String c t :: ts)
        | [] => (true, [String c EmptyString])
        end
      else (true, String c EmptyString :: toks)
  end.

Definition split (s : string) : list string := snd (split_aux s).

(** Longest prefix of characters satisfying [p], and the rest. *)
Fixpoint span (p : ascii -> bool) (s : string) : string * string :=
  match s with
  | EmptyString => (EmptyString, EmptyString)
  | String c s' =>
      if p c then let (a, b) := span p s' in (String c a, b)
      else (EmptyString, s)
  end.

Fixpoint last_char (s : string) : string :=
  match s with
  | EmptyString => EmptyString
  | String c EmptyString => s
  | String _ s' => last_char s'
  end.

(** [re.match(HEADER_PATTERN, line)] with
    [HEADER_PATTERN = (\w+)\s+([\w\s\.\-?\d+\.?\d*]+)]: the two groups.
    All three repetitions are greedy.  When nothing of the value class
    follows the blanks, the blank run gives its last character back to the
    second group. *)
Definition header_match (line : string) : option (string * string) :=
  let (key, r1) := span is_word line in
  let (blanks, r2) := span is_space r1 in
  let (value, _) := span is_value_char r2 in
  if (String.length key =? 0)%nat then None
  else if (String.length blanks =? 0)%nat then None
  else if (0 <? String.length value)%nat then Some (key, value)
  else if (2 <=? String.length blanks)%nat then Some (key, last_char blanks)
  else None.

(** [int(s)] on a token: an optional sign, then decimal digits, single
    underscores allowed between digits. *)
Fixpoint int_digits (s : string) (acc : Z) (after_digit : bool) : option Z :=
  match s with
  | EmptyString => if after_digit then Some acc else None
  | String c s' =>
      if is_digit c then
        int_digits s' (10 * acc + Z.of_nat (nat_of_ascii c - 48)) true
      else if Ascii.eqb c "_" && after_digit then int_digits s' acc false
      else None
  end.

Definition int (s : string) : result Z :=
  let r :=
    match s with
    | String "-" s' => option_map Z.opp (int_digits s' 0 false)
    | String "+" s' => int_digits s' 0 false
    | _ => int_digits s 0 false
    end in
  match r with
  | Some z => Ok z
  | None => Err (ValueError ("invalid literal for int() with base 10: '" ++ s ++ "'"))
  end.

(** [f"{i:04d}"] *)
Fixpoint zfill (pad : nat) (s : string) : string :=
  match pad with
  | O => s
  | S k => zfill k (String "0" s)
  end.

Definition format_04d (i : nat) : string :=
  let s := NilEmpty.string_of_uint (Nat.to_uint i) in
  zfill (4 - String.length s) s.

Fixpoint mapM {A B : Type} (f : A -> result B) (l : list A) : result (list B) :=
  match l with
  | [] => Ok []
  | x :: l' => y <- f x ;; ys <- mapM f l' ;; Ok (y :: ys)
  end.

(** [t[i]] on a tuple *)
Definition getitem {A : Type} (t : list A) (i : nat) : result A :=
  match nth_error t i with
  | Some x => Ok x
  | None => Err IndexError
  end.

(** *** Type tables *)

Inductive kind : Type := F | U | I.          (* Literal["F", "U", "I"] *)

Inductive np_type : Type :=
| float32 | float64
| uint8 | uint16 | uint32 | uint64
| int8 | int16 | int32 | int64.

Definition PCD_TYPE_TO_NUMPY_TYPE (key : kind * positive) : option np_type :=
  match key with
  | (F, 4%positive) => Some float32
  | (F, 8%positive) => Some float64
  | (U, 1%positive) => Some uint8
  | (U, 2%positive) => Some uint16
  | (U, 4%positive) => Some uint32
  | (U, 8%positive) => Some uint64
  | (I, 1%positive) => Some int8
  | (I, 2%positive) => Some int16
  | (I, 4%positive) => Some int32
  | (I, 8%positive) => Some int64
  | _ => None
  end.

Definition np_type_code (t : np_type) : nat :=
  match t with
  | float32 => 0 | float64 => 1
  | uint8 => 2 | uint16 => 3 | uint32 => 4 | uint64 => 5
  | int8 => 6 | int16 => 7 | int32 => 8 | int64 => 9
  end.

(** [t1 == t2] on dtypes *)
Definition np_type_eqb (t1 t2 : np_type) : bool :=
  (np_type_code t1 =? np_type_code t2)%nat.

(** [np.dtype(t).itemsize] of a scalar type *)
Definition np_itemsize (t : np_type) : nat :=
  match t with
  | uint8 | int8 => 1
  | uint16 | int16 => 2
  | float32 | uint32 | int32 => 4
  | float64 | uint64 | int64 => 8
  end.

Inductive Encoding : Type := ASCII | BINARY.

(** The validated model: [PositiveInt] is [positive], [NonNegativeInt] is
    [N], the element kinds are the three literals. *)
Record MetaData : Type := mkMetaData {
  fields : list string;
  size : list positive;
  type : list kind;
  count : list positive;
  points : N;
  width : N;
  height : N;
  version : string;
  viewpoint : list Q;
  data : Encoding
}.

(** The dictionary [_header] built by [parse_header]; its keys are among
    the ten below, each with values of one shape. *)
Record header_dict : Type := mkHeader {
  h_fields : option (list string);
  h_size : option (list Z);
  h_type : option (list string);
  h_count : option (list Z);
  h_points : option Z;
  h_width : option Z;
  h_height : option Z;
  h_version : option string;
  h_viewpoint : option (list Q);
  h_data : option string
}.

Definition empty_header : header_dict :=
  mkHeader None None None None None None None None None None.

(** A structured dtype: the named scalar columns of a record, packed. *)
Definition dtype : Type := list (string * np_type).

Definition names (dt : dtype) : list string := map fst dt.
Definition itemsize (dt : dtype) : nat := list_sum (map (fun c => np_itemsize (snd c)) dt).

(** A decoded element: an integer, or the bit pattern of a float. *)
Inductive scalar : Type :=
| Int (v : Z)
| Float32 (bits : Z)
| Float64 (bits : Z).

(** A 1-D structured array. *)
Record ndarray : Type := mkArray {
  arr_dtype : dtype;
  records : list (list scalar)
}.

(** A dense 2-D array. *)
Record matrix : Type := mkMatrix {
  shape : nat * nat;
  mdtype : np_type;
  rows : list (list scalar)
}.

Record PointCloud : Type := mkPointCloud {
  metadata : MetaData;
  pc_data : ndarray
}.

(** *** Decoding of packed little-endian records *)

Definition le_unsigned (bs : list byte) : Z :=
  fold_right (fun b acc => Z.of_N (Byte.to_N b) + 256 * acc)%Z 0%Z bs.

Definition to_signed (bits : Z) (v : Z) : Z :=
  (if v <? 2 ^ (bits - 1) then v else v - 2 ^ bits)%Z.

Definition decode_scalar (t : np_type) (bs : list byte) : scalar :=
  let v := le_unsigned bs in
  match t with
  | float32 => Float32 v
  | float64 => Float64 v
  | uint8 | uint16 | uint32 | uint64 => Int v
  | int8 | int16 | int32 | int64 =>
      Int (to_signed (8 * Z.of_nat (np_itemsize t)) v)
  end.

Fixpoint unpack (dt : dtype) (rec : list byte) : list scalar :=
  match dt with
  | [] => []
  | (_, t) :: dt' =>
      decode_scalar t (firstn (np_itemsize t) rec)
      :: unpack dt' (skipn (np_itemsize t) rec)
  end.

(** The first [k] consecutive items of [n] bytes each. *)
Fixpoint items (k n : nat) (buffer : list byte) : list (list byte) :=
  match k with
  | O => []
  | S k' => firstn n buffer :: items k' n (skipn n buffer)
  end.

(** [np.frombuffer(buffer, dtype)] *)
Definition frombuffer (buffer : list byte) (dt : dtype)
  : result (list (list scalar)) :=
  let n := itemsize dt in
  if (n =? 0)%nat then Err (ValueError "itemsize cannot be zero in type")
  else if (length buffer mod n =? 0)%nat then
    Ok (map (unpack dt) (items (length buffer / n) n buffer))
  else Err (ValueError "buffer size must be a multiple of element size").

(** [np.dtype(list of (name, type))]: field names must be distinct; the
    error names the first repeated one. *)
Fixpoint first_repeated (seen names : list string) : option string :=
  match names with
  | [] => None
  | n :: ns =>
      if existsb (String.eqb n) seen then Some n
      else first_repeated (n :: seen) ns
  end.

Definition np_dtype (cols : list (string * np_type)) : result dtype :=
  match first_repeated [] (map fst cols) with
  | Some n => Err (ValueError ("field '" ++ n ++ "' occurs more than once"))
  | None => Ok cols
  end.

(** [l.index(x)] for an [x] known to occur, and [x in l]. *)
Fixpoint index (l : list string) (x : string) : nat :=
  match l with
  | [] => O
  | y :: l' => if String.eqb y x then O else S (index l' x)
  end.

Definition contains (l : list string) (x : string) : bool :=
  existsb (String.eqb x) l.

(** Expansion of one header field into its column names. *)
Definition expand (field : string) (count : positive) : list string :=
  if (count =? 1)%positive then [field]
  else map (fun i => field ++ "__" ++ format_04d i) (seq 0 (Pos.to_nat count)).

(** *** Iterating a binary file by lines *)

Definition newline : byte := x0a.

Fixpoint iter_lines (bs : list byte) : list (list byte) :=
  match bs with
  | [] => []
  | b :: bs' =>
      if Byte.eqb b newline then [b] :: iter_lines bs'
      else match iter_lines bs' with
           | [] => [[b]]
           | l :: ls => (b :: l) :: ls
           end
  end.

Definition decode (bline : list byte) : string := string_of_list_byte bline.

(** The loop of [PointCloud.from_fileobj]: the collected lines and the
    lines left unread in the file. *)
Fixpoint read_header (lines : list string) (fp : list (list byte))
  : list string * list (list byte) :=
  match fp with
  | [] => (lines, [])
  | bline :: fp' =>
      let line := strip (decode bline) in
      if startswith line "#" || (String.length line =? 0)%nat then
        read_header lines fp'
      else
        let lines := (lines ++ [line])%list in
        if startswith line "DATA" || (10 <=? length lines)%nat then (lines, fp')
        else read_header lines fp'
  end.

Section Conversion.

(** [float(token)] for the viewpoint. *)
Variable float : string -> result Q.

(** The [k]-th call of ["".join(random.choices(letters + digits, k=6))]
    in the run. *)
Variable random_suffix : nat -> string.

(** [np.loadtxt(fp, dtype, delimiter=" ")] on the rest of the file; the
    values read depend on the column types, not on their names. *)
Variable loadtxt : list byte -> list np_type -> result (list (list scalar)).

(** [np.result_type] of column types that are not all the same, and the
    conversion of one element from a type to a different one, as
    [np.vstack] applies them. *)
Variable np_result_type : list np_type -> np_type.
Variable astype : np_type -> np_type -> scalar -> scalar.

(** The text [csv.writer] writes for a NumPy scalar of the given type. *)
Variable np_str : np_type -> scalar -> string.

(** The comprehension over the tokens of a [FIELDS] line; [draws] counts
    the calls to [random.choices] made so far. *)
Fixpoint rename_anonymous (draws : nat) (value : list string)
  : list string * nat :=
  match value with
  | [] => ([], draws)
  | s :: value' =>
      if String.eqb s "_" then
        let (r, d) := rename_anonymous (S draws) value' in
        (("#$%&~~" ++ random_suffix draws) :: r, d)
      else
        let (r, d) := rename_anonymous draws value' in
        (s :: r, d)
  end.

Definition key_in (key : string) (keys : list string) : bool :=
  existsb (String.eqb key) keys.

(** One iteration of the loop of [parse_header]. *)
Definition parse_line (st : header_dict * nat) (line : string)
  : result (header_dict * nat) :=
  let (h, draws) := st in
  if startswith line "#" || (String.length line <? 2)%nat then Ok st
  else
    match header_match line with
    | None => Ok st
    | Some (group1, group2) =>
        let value := split group2 in
        let key := lower group1 in
        if String.eqb key "version" then
          v <- getitem value 0 ;;
          Ok (mkHeader (h_fields h) (h_size h) (h_type h) (h_count h)
                (h_points h) (h_width h) (h_height h) (Some v)
                (h_viewpoint h) (h_data h), draws)
        else if String.eqb key "data" then
          v <- getitem value 0 ;;
          Ok (mkHeader (h_fields h) (h_size h) (h_type h) (h_count h)
                (h_points h) (h_width h) (h_height h) (h_version h)
                (h_viewpoint h) (Some v), draws)
        else if String.eqb key "width" then
          v <- getitem value 0 ;; n <- int v ;;
          Ok (mkHeader (h_fields h) (h_size h) (h_type h) (h_count h)
                (h_points h) (Some n) (h_height h) (h_version h)
                (h_viewpoint h) (h_data h), draws)
        else if String.eqb key "height" then
          v <- getitem value 0 ;; n <- int v ;;
          Ok (mkHeader (h_fields h) (h_size h) (h_type h) (h_count h)
                (h_points h) (h_width h) (Some n) (h_version h)
                (h_viewpoint h) (h_data h), draws)
        else if String.eqb key "points" then
          v <- getitem value 0 ;; n <- int v ;;
          Ok (mkHeader (h_fields h) (h_size h) (h_type h) (h_count h)
                (Some n) (h_width h) (h_height h) (h_version h)
                (h_viewpoint h) (h_data h), draws)
        else if String.eqb key "fields" then
          let (fs, draws') := rename_anonymous draws value in
          Ok (mkHeader (Some fs) (h_size h) (h_type h) (h_count h)
                (h_points h) (h_width h) (h_height h) (h_version h)
                (h_viewpoint h) (h_data h), draws')
        else if String.eqb key "type" then
          Ok (mkHeader (h_fields h) (h_size h) (Some value) (h_count h)
                (h_points h) (h_width h) (h_height h) (h_version h)
                (h_viewpoint h) (h_data h), draws)
        else if String.eqb key "size" then
          ns <- mapM int value ;;
          Ok (mkHeader (h_fields h) (Some ns) (h_type h) (h_count h)
                (h_points h) (h_width h) (h_height h) (h_version h)
                (h_viewpoint h) (h_data h), draws)
        else if String.eqb key "count" then
          ns <- mapM int value ;;
          Ok (mkHeader (h_fields h) (h_size h) (h_type h) (Some ns)
                (h_points h) (h_width h) (h_height h) (h_version h)
                (h_viewpoint h) (h_data h), draws)
        else if String.eqb key "viewpoint" then
          vs <- mapM float value ;;
          Ok (mkHeader (h_fields h) (h_size h) (h_type h) (h_count h)
                (h_points h) (h_width h) (h_height h) (h_version h)
                (Some vs) (h_data h), draws)
        else Ok st
    end.

Fixpoint parse_lines (st : header_dict * nat) (lines : list string)
  : result (header_dict * nat) :=
  match lines with
  | [] => Ok st
  | line :: lines' => st' <- parse_line st line ;; parse_lines st' lines'
  end.

(** *** Validation performed when [MetaData] is constructed from [_header] *)

Definition validated {A : Type} (o : option A) : result A :=
  match o with
  | Some a => Ok a
  | None => Err ValidationError
  end.

Definition positive_int (z : Z) : option positive :=
  match z with
  | Zpos p => Some p
  | _ => None
  end.

Definition non_negative_int (z : Z) : option N :=
  match z with
  | Z0 => Some N0
  | Zpos p => Some (Npos p)
  | Zneg _ => None
  end.

Definition kind_literal (s : string) : option kind :=
  if String.eqb s "F" then Some F
  else if String.eqb s "U" then Some U
  else if String.eqb s "I" then Some I
  else None.

Definition encoding_value (s : string) : option Encoding :=
  if String.eqb s "ascii" then Some ASCII
  else if String.eqb s "binary" then Some BINARY
  else None.

Fixpoint all_some {A B : Type} (f : A -> option B) (l : list A)
  : option (list B) :=
  match l with
  | [] => Some []
  | x :: l' =>
      match f x, all_some f l' with
      | Some y, Some ys => Some (y :: ys)
      | _, _ => None
      end
  end.

Definition with_default {A B : Type} (o : option A) (dflt : B)
  (f : A -> option B) : option B :=
  match o with
  | None => Some dflt
  | Some a => f a
  end.

Definition seven (v : list Q) : option (list Q) :=
  if (length v =? 7)%nat then Some v else None.

Definition validate (h : header_dict) : result MetaData :=
  fs <- validated (h_fields h) ;;
  sz <- validated (match h_size h with Some l => all_some positive_int l | None => None end) ;;
  ty <- validated (match h_type h with Some l => all_some kind_literal l | None => None end) ;;
  ct <- validated (match h_count h with Some l => all_some positive_int l | None => None end) ;;
  pt <- validated (match h_points h with Some z => non_negative_int z | None => None end) ;;
  wd <- validated (match h_width h with Some z => non_negative_int z | None => None end) ;;
  ht <- validated (with_default (h_height h) 1%N non_negative_int) ;;
  vp <- validated (with_default (h_viewpoint h) [0; 0; 0; 1; 0; 0; 0]%Q seven) ;;
  dt <- validated (with_default (h_data h) BINARY encoding_value) ;;
  Ok (mkMetaData fs sz ty ct pt wd ht
        (match h_version h with Some v => v | None => "0.7" end) vp dt).

Definition parse_header (lines : list string) : result MetaData :=
  st <- parse_lines (empty_header, O) lines ;;
  validate (fst st).

(** *** [MetaData.build_dtype] *)

Fixpoint build_columns (md : MetaData) (i : nat) (fs : list string)
  : result (list (string * np_type)) :=
  match fs with
  | [] => Ok []
  | field :: fs' =>
      t <- getitem (type md) i ;;
      s <- getitem (size md) i ;;
      np_type <- (match PCD_TYPE_TO_NUMPY_TYPE (t, s) with
                  | Some n => Ok n
                  | None => Err KeyError
                  end) ;;
      count <- getitem (count md) i ;;
      rest <- build_columns md (S i) fs' ;;
      Ok (map (fun name => (name, np_type)) (expand field count) ++ rest)%list
  end.

Definition build_dtype (md : MetaData) : result dtype :=
  cols <- build_columns md 0 (fields md) ;;
  np_dtype cols.

(** *** [_parse_pc_data] *)

Definition _parse_pc_data (fp : list byte) (md : MetaData) : result ndarray :=
  dtype <- build_dtype md ;;
  if (0 <? points md)%N then
    match data md with
    | ASCII =>
        pc_data <- loadtxt fp (map snd dtype) ;;
        Ok (mkArray dtype pc_data)
    | BINARY =>
        let buffer := firstn (N.to_nat (points md) * itemsize dtype) fp in
        pc_data <- frombuffer buffer dtype ;;
        Ok (mkArray dtype pc_data)
    end
  else Ok (mkArray dtype []).

(** *** [PointCloud] *)

Definition from_fileobj (fp : list byte) : result PointCloud :=
  let (lines, rest) := read_header [] (iter_lines fp) in
  metadata <- parse_header lines ;;
  pc_data <- _parse_pc_data (concat rest) metadata ;;
  Ok (mkPointCloud metadata pc_data).

(** The file is given by its content. *)
Definition from_path (content : list byte) : result PointCloud :=
  from_fileobj content.

(** The property [PointCloud.fields]. *)
Definition PointCloud_fields (pc : PointCloud) : list string :=
  flat_map (fun fc => expand (fst fc) (snd fc))
           (combine (fields (metadata pc)) (count (metadata pc))).

(** [pc_data[field]]: the column of a structured array, with its type. *)
Definition column (a : ndarray) (field : string)
  : result (np_type * list scalar) :=
  if contains (names (arr_dtype a)) field then
    let i := index (names (arr_dtype a)) field in
    Ok (nth i (map snd (arr_dtype a)) float64,
        map (fun r => nth i r (Int 0)) (records a))
  else Err (ValueError ("no field of name " ++ field)).

(** The dtype [np.vstack] gives to its result: the columns' own type when
    they all have the same one, their promotion otherwise. *)
Definition common_type (ts : list np_type) : np_type :=
  match ts with
  | [] => float64
  | t :: ts' => if forallb (np_type_eqb t) ts' then t else np_result_type ts
  end.

(** An element of type [from] in an array of type [to]. *)
Definition cast (from to : np_type) (s : scalar) : scalar :=
  if np_type_eqb from to then s else astype from to s.

(** [np.vstack(cols).T] for columns of [n] elements each. *)
Definition vstack_T (n : nat) (cols : list (np_type * list scalar)) : matrix :=
  let t := common_type (map fst cols) in
  mkMatrix (n, length cols) t
           (map (fun r => map (fun c => cast (fst c) t (nth r (snd c) (Int 0)))
                              cols)
                (seq 0 n)).

Definition numpy (pc : PointCloud) (fields : option (list string))
  : result matrix :=
  let fields := match fields with
                | None => PointCloud_fields pc
                | Some fs => fs
                end in
  if (length fields =? 0)%nat then Ok (mkMatrix (0, 0)%nat float64 [])
  else if (points (metadata pc) =? 0)%N then
    Ok (mkMatrix (0%nat, length fields) float64 [])
  else
    _stack <- mapM (column (pc_data pc)) fields ;;
    Ok (vstack_T (length (records (pc_data pc))) _stack).

(** *** [pcd_to_csv]: the rows handed to [csv.writer], then the file. *)

Definition selected_fields : list string := ["x"; "y"; "z"; "intensity"].

Definition pcd_to_csv_rows (pcd : list byte) : result (list (list string)) :=
  point_cloud <- from_path pcd ;;
  let fields := PointCloud_fields point_cloud in
  points <- numpy point_cloud (Some fields) ;;
  let selected_indices :=
    map (index fields) (filter (contains fields) selected_fields) in
  let selected_points :=
    map (fun row => map (fun i => nth i row (Int 0)) selected_indices)
        (rows points) in
  Ok (selected_fields :: map (map (np_str (mdtype points))) selected_points).

Definition writerow (row : list string) : string :=
  String.concat "," row ++ String "013" (String "010" EmptyString).

Definition pcd_to_csv (pcd : list byte) : result string :=
  rows <- pcd_to_csv_rows pcd ;;
  Ok (String.concat "" (map writerow rows)).

End Conversion.

End Pcd2Csv.

(** ** Notions used to state the properties *)

Module Notions.

Import Pcd2Csv.

Open Scope list_scope.
Open Scope nat_scope.

(** The supported (TYPE, SIZE) pairs. *)
Definition supported : list (kind * positive) :=
  [(F, 4); (F, 8); (U, 1); (U, 2); (U, 4); (U, 8);
   (I, 1); (I, 2); (I, 4); (I, 8)]%positive.

(** The stride as the specification words it: the sum over the header
    fields of [size[i] * count[i]]. *)
Definition field_bytes (md : MetaData) (i : nat) : nat :=
  Pos.to_nat (nth i (size md) 1%positive)
  * Pos.to_nat (nth i (count md) 1%positive).

Definition stride (md : MetaData) : nat :=
  list_sum (map (field_bytes md) (seq 0 (length (fields md)))).

(** The key under which [parse_header] files a line, if it does. *)
Definition line_key (line : string) : option string :=
  if startswith line "#" || (String.length line <? 2) then None
  else match header_match line with
       | Some (group1, _) => Some (lower group1)
       | None => None
       end.

(** The keys [MetaData] declares without a default. *)
Definition required_keys : list string :=
  ["fields"; "size"; "type"; "count"; "points"; "width"]%string.

Definition is_some {A : Type} (o : option A) : bool :=
  match o with Some _ => true | None => false end.

(** [k in _header] *)
Definition present (h : header_dict) (k : string) : bool :=
  if String.eqb k "fields" then is_some (h_fields h)
  else if String.eqb k "size" then is_some (h_size h)
  else if String.eqb k "type" then is_some (h_type h)
  else if String.eqb k "count" then is_some (h_count h)
  else if String.eqb k "points" then is_some (h_points h)
  else if String.eqb k "width" then is_some (h_width h)
  else if String.eqb k "height" then is_some (h_height h)
  else if String.eqb k "version" then is_some (h_version h)
  else if String.eqb k "viewpoint" then is_some (h_viewpoint h)
  else if String.eqb k "data" then is_some (h_data h)
  else false.

(** The expansion of a (field, count) pair of the header. *)
Definition expand_pair (fc : string * positive) : list string :=
  expand (fst fc) (snd fc).

(** The type and, in a record, the value of the column named [f]. *)
Definition column_type (a : ndarray) (f : string) : np_type :=
  nth (index (names (arr_dtype a)) f) (map snd (arr_dtype a)) float64.

Definition column_value (a : ndarray) (f : string) (rec : list scalar)
  : scalar :=
  nth (index (names (arr_dtype a)) f) rec (Int 0).

(** The element type of the stack of the requested columns. *)
Definition stacked_type (result_type : list np_type -> np_type)
  (a : ndarray) (req : list string) : np_type :=
  common_type result_type (map (column_type a) req).

(** The data rows of the CSV file: for every record, the text of its
    values of the selected columns the array has, converted to [t]. *)
Definition csv_data (conv : np_type -> np_type -> scalar -> scalar)
  (str : np_type -> scalar -> string) (t : np_type) (a : ndarray)
  : list (list string) :=
  map (fun rec =>
         map (fun f => str t (conv (column_type a f) t (column_value a f rec)))
             (filter (contains (names (arr_dtype a))) selected_fields))
      (records a).

(** The matrix of the requested columns, row by row: each cell is the
    record's value of the column, converted by [conv] to the type [t]. *)
Definition selection (conv : np_type -> np_type -> scalar -> scalar)
  (t : np_type) (a : ndarray) (req : list string) : list (list scalar) :=
  map (fun rec =>
         map (fun f => conv (column_type a f) t (column_value a f rec)) req)
      (records a).

(** A line the header reader keeps: not empty and not a comment. *)
Definition collectable (l : string) : Prop :=
  l <> EmptyString /\ startswith l "#" = false.

(** The number of columns of the header field at index [i]. *)
Definition field_count (md : MetaData) (i : nat) : nat :=
  Pos.to_nat (nth i (count md) 1%positive).

(** The lookups [build_dtype] makes for the field at index [i], in the
    order it makes them: [type[i]], [size[i]], the type table, [count[i]]. *)
Definition field_check (md : MetaData) (i : nat) : result (np_type * positive) :=
  t <- getitem (type md) i ;;
  s <- getitem (size md) i ;;
  np <- (match PCD_TYPE_TO_NUMPY_TYPE (t, s) with
         | Some n => Ok n
         | None => Err KeyError
         end) ;;
  c <- getitem (count md) i ;;
  Ok (np, c).


(** Names given to anonymous fields start with [#], which no header token
    can contain.  [canon] forgets which suffix was drawn. *)
Definition anonymous (s : string) : bool := startswith s "#".

Definition canon (s : string) : string :=
  if anonymous s then "#"%string else s.

Definition erase_header (h : header_dict) : header_dict :=
  mkHeader (option_map (map canon) (h_fields h)) (h_size h) (h_type h)
           (h_count h) (h_points h) (h_width h) (h_height h) (h_version h)
           (h_viewpoint h) (h_data h).

Definition erase_state (st : header_dict * nat) : header_dict * nat :=
  (erase_header (fst st), snd st).

Definition erase_metadata (md : MetaData) : MetaData :=
  mkMetaData (map canon (fields md)) (size md) (type md) (count md)
             (points md) (width md) (height md) (version md) (viewpoint md)
             (data md).

Definition erase_dtype (dt : dtype) : dtype :=
  map (fun c => (canon (fst c), snd c)) dt.

Definition result_map {A B : Type} (f : A -> B) (r : result A) : result B :=
  match r with
  | Ok a => Ok (f a)
  | Err e => Err e
  end.

End Notions.

(** ** Sample inputs *)

Module Samples.

Import CropParameters.

Open Scope Q_scope.

(** Soil points at height 0, spread over a strip 0.09 wide. *)
Definition soil (k : Z) : point :=
  mkPoint (k # 100) ((k * k) # 100) 0 10.

(** The analysis set of the percentile scenario. *)
Definition scenario_heights : list Q :=
  [15 # 100; 2 # 10; 3 # 10; 4 # 10; 5 # 10; 6 # 10; 7 # 10; 8 # 10; 9 # 10; 1].

(** A cloud whose analysis set is [scenario_heights]: four soil points at
    height 0 and one canopy point per height. *)
Definition scenario_cloud : list point :=
  map soil [0; 3; 6; 9]%Z
  ++ map (fun z => mkPoint (5 # 100) (5 # 100) z 60) scenario_heights.




End Samples.

(** ** Sample containers *)

Module PcdSamples.

Import Pcd2Csv.

Open Scope string_scope.

Definition nl : string := String "010" EmptyString.

Definition file (header_lines : list string) (body : string) : list byte :=
  list_byte_of_string (String.concat "" (map (fun l => l ++ nl) header_lines) ++ body).

(** Stand-ins for the library calls. *)
Definition float_stub (_ : string) : result Q := Err (ValueError "float").
Definition loadtxt_stub (_ : list byte) (_ : list np_type)
  : result (list (list scalar)) := Ok [].
Definition str_stub (_ : np_type) (s : scalar) : string :=
  match s with
  | Int v => NilZero.string_of_int (Z.to_int v)
  | Float32 _ | Float64 _ => "f"
  end.

(** Promotion and conversion, exact for unsigned integer columns whose
    values fit the wider type: the widest of the types, the value kept. *)
Definition unsigned_width (t : np_type) : option nat :=
  match t with
  | uint8 => Some 1%nat
  | uint16 => Some 2%nat
  | uint32 => Some 4%nat
  | uint64 => Some 8%nat
  | _ => None
  end.

Definition wider (a b : np_type) : np_type :=
  match unsigned_width a, unsigned_width b with
  | Some x, Some y => if (x <? y)%nat then b else a
  | _, _ => float64
  end.

Fixpoint result_type_stub (ts : list np_type) : np_type :=
  match ts with
  | [] => float64
  | [t] => t
  | t :: ts' => wider t (result_type_stub ts')
  end.

Definition astype_stub (_ _ : np_type) (s : scalar) : scalar := s.

(** Two runs of the random generator: one repeats its first suffix, the
    other does not. *)
Definition suffix_repeating (_ : nat) : string := "aaaaaa".
Definition suffix_fresh (k : nat) : string :=
  match k with
  | O => "aaaaaa"
  | _ => "bbbbbb"
  end.

Definition suffix_other (k : nat) : string :=
  match k with
  | O => "cccccc"
  | _ => "dddddd"
  end.

Definition crlf : string := String "013" (String "010" EmptyString).

(** One unsigned byte per point, three points declared. *)
Definition byte_metadata : MetaData :=
  mkMetaData ["i"] [1%positive] [U] [1%positive] 3 3 1 "0.7"
             [0; 0; 0; 1; 0; 0; 0]%Q BINARY.

Definition two_bytes : list byte := list_byte_of_string "ab".

(** One unsigned 16-bit word per point, two points declared. *)
Definition word_metadata : MetaData :=
  mkMetaData ["i"] [2%positive] [U] [1%positive] 2 2 1 "0.7"
             [0; 0; 0; 1; 0; 0; 0]%Q BINARY.

Definition three_bytes : list byte := list_byte_of_string "abc".
Definition four_bytes : list byte := list_byte_of_string "abcd".

(** A header whose four per-field sequences differ in length. *)
Definition ragged_header : list string :=
  ["FIELDS x"; "SIZE 1 4"; "TYPE U F"; "COUNT 1 1"; "WIDTH 2"; "POINTS 2";
   "DATA binary"].

(** A header with an unsupported (type, size) pair. *)
Definition half_float_header : list string :=
  ["FIELDS x"; "SIZE 2"; "TYPE F"; "COUNT 1"; "WIDTH 1"; "POINTS 1"].

(** The validated form of [half_float_header]. *)
Definition half_float_metadata : MetaData :=
  mkMetaData ["x"] [2%positive] [F] [1%positive] 1 1 1 "0.7"
             [0; 0; 0; 1; 0; 0; 0]%Q BINARY.

(** An empty cloud with the single column [x]. *)
Definition empty_cloud_file : list byte :=
  file ["FIELDS x"; "SIZE 1"; "TYPE U"; "COUNT 1"; "WIDTH 0"; "POINTS 0";
        "DATA binary"] "".

(** Two points with columns [x], [y], [z] and no intensity. *)
Definition xyz_file : list byte :=
  file ["FIELDS x y z"; "SIZE 1 1 1"; "TYPE U U U"; "COUNT 1 1 1"; "WIDTH 2";
        "POINTS 2"; "DATA binary"] "abcdef".

(** One point with an 8-bit column [x] and a 16-bit column [intensity]. *)
Definition mixed_file : list byte :=
  file ["FIELDS x intensity"; "SIZE 1 2"; "TYPE U U"; "COUNT 1 1"; "WIDTH 1";
        "POINTS 1"; "DATA binary"] "abc".

(** One point, column [x] and two anonymous padding fields. *)
Definition padded_file : list byte :=
  file ["FIELDS x _ _"; "SIZE 1 1 1"; "TYPE U U U"; "COUNT 1 1 1"; "WIDTH 1";
        "POINTS 1"; "DATA binary"] "abc".

(** Ten header lines before the [DATA] line. *)
Definition late_data_lines : list string :=
  ["VERSION .7"; "FIELDS x"; "SIZE 1"; "TYPE U"; "COUNT 1"; "WIDTH 1";
   "HEIGHT 1"; "VIEWPOINT"; "POINTS 1"; "COMMENT none"].

Definition late_data_file : list byte :=
  file (late_data_lines ++ ["DATA ascii"])%list "7".

End PcdSamples.

(** ** figures/compute-crop-parameters.py in float64 arithmetic *)

(** The script as it runs: the values are binary64 floats, the arithmetic
    and the comparisons written in the script are the IEEE 754 ones, and
    the NumPy and scikit-learn calls are Section variables. *)

Module CropParametersFloat.

Import PrimFloat.

Open Scope float_scope.

(** One row of the loaded table: X, Y, Z and intensity. *)
Record point : Type := mkPoint { pX : float; pY : float; pZ : float; pI : float }.

(** The array [np.loadtxt] returns: two-dimensional for a table of at
    least two rows and two columns, of fewer dimensions otherwise. *)
Inductive ndarray : Type :=
| Array1 (values : list float)
| Array2 (ncols : nat) (rows : list (list float)).

(** A returned number: the Python integer of [return 0] or a NumPy float. *)
Inductive number : Type :=
| PyInt (n : Z)
| NpFloat (x : float).

Definition xyz (p : point) : float * float * float := (pX p, pY p, pZ p).

(** [data[:, :3]] and [data[:, 3]], one row at a time. *)
Definition row_point (row : list float) : point :=
  mkPoint (nth 0 row 0) (nth 1 row 0) (nth 2 row 0) (nth 3 row 0).

(** [np.sum(a >= t)] *)
Definition count_ge (a : list float) (t : float) : nat :=
  length (filter (fun z => t <=? z) a).

(** What the script prints when the analysis set is not empty. *)
Record report : Type := mkReport {
  n_above_015 : nat;
  p50 : float; p60 : float; p70 : float; p80 : float; p90 : float;
  count_top_50 : nat; count_top_60 : nat; count_top_70 : nat;
  count_top_80 : nat; count_top_90 : nat;
  avg_int_50 : float; avg_int_60 : float; avg_int_70 : float;
  avg_int_80 : float; avg_int_90 : float;
  bounding_box_area : float;
  bounding_box_volume : float;
  p99_top_z : float
}.

Inductive stdout : Type :=
| NoPointsAbove015
| Printed (r : report).

Definition zero_size (reduction : string) : exn :=
  ValueError ("zero-size array to reduction operation " ++ reduction
              ++ " which has no identity")%string.

Section Pipeline.

Variable File : Type.

(** [np.loadtxt(file_path, delimiter=',', skiprows=1)] *)
Variable np_loadtxt : File -> result ndarray.

(** [np.min], [np.max], [np.percentile] and [np.mean] of a non-empty 1-D
    array, and [np.mean(points, axis=0)]. *)
Variable np_min : list float -> float.
Variable np_max : list float -> float.
Variable np_percentile : list float -> float -> float.
Variable np_mean : list float -> float.
Variable np_mean_axis0 : list (float * float * float) -> float * float * float.

(** [PCA(n_components=3).fit(points).components_[-1]], which raises on
    input it does not accept, and [np.dot] with it. *)
Variable Normal : Type.
Variable pca_last_component : list (float * float * float) -> result Normal.
Variable np_dot : Normal -> float * float * float -> float.

Definition amin (a : list float) : result float :=
  match a with
  | [] => Err (zero_size "minimum")
  | _ :: _ => Ok (np_min a)
  end.

Definition amax (a : list float) : result float :=
  match a with
  | [] => Err (zero_size "maximum")
  | _ :: _ => Ok (np_max a)
  end.

(** *** [fit_plane] *)

Definition fit_plane (points : list (float * float * float))
  : result (Normal * float * float) :=
  if (length points <? 3)%nat then
    Err (ValueError "Not enough points to fit a plane")
  else
    normal <- pca_last_component points ;;
    let point_on_plane := np_mean_axis0 points in
    let d := - np_dot normal point_on_plane in
    Ok (normal, d, snd point_on_plane).

(** *** [load_txt_point_cloud] *)

(** Indexing with [data[:, :3]] needs two dimensions, [data[:, 3]] a
    fourth column. *)
Definition load_txt_point_cloud (file_path : File) : result (list point) :=
  data <- np_loadtxt file_path ;;
  match data with
  | Array1 _ => Err IndexError
  | Array2 ncols rows =>
      if (ncols <=? 3)%nat then Err IndexError else Ok (map row_point rows)
  end.

(** *** [calculate_plant_height_and_plot], step 2: the ground *)

Definition ground_threshold (lowest_z x_range : float) : float :=
  lowest_z + (0.231 * x_range).

Definition ground_points (ground_threshold : float) (points : list point)
  : list point :=
  filter (fun p => pZ p <=? ground_threshold) points.

Definition selected_ground_points (ground_points : list point) : list point :=
  let ground_z_90th := np_percentile (map pZ ground_points) 90 in
  filter (fun p => ground_z_90th <=? pZ p) ground_points.

Definition estimate_ground (points : list point)
  : result (Normal * float * float) :=
  lowest_z <- amin (map pZ points) ;;
  x_max <- amax (map pX points) ;;
  x_min <- amin (map pX points) ;;
  let x_range := x_max - x_min in
  let ground_points := ground_points (ground_threshold lowest_z x_range) points in
  if (length ground_points <? 3)%nat then
    Err (ValueError "Insufficient ground points to fit plane.")
  else
    fit_plane (map xyz (selected_ground_points ground_points)).

(** *** Steps 2 (end) to 6 *)

Definition dark_threshold : float := 0.15.

(** [Z -= ground_level] *)
Definition normalize (ground_level : float) (points : list point) : list point :=
  map (fun p => mkPoint (pX p) (pY p) (pZ p - ground_level) (pI p)) points.

(** The points kept by [above_plane_mask]. *)
Definition above_plane (ground_level : float) (points : list point) : list point :=
  filter (fun p => 0 <=? pZ p) (normalize ground_level points).

(** The points kept by [above_015_mask]. *)
Definition above_015 (ground_level : float) (points : list point) : list point :=
  filter (fun p => dark_threshold <=? pZ p) (above_plane ground_level points).

Definition avg_int (sel : list point) (t : float) : float :=
  if (0 <? count_ge (map pZ sel) t)%nat then
    np_mean (map pI (filter (fun p => t <=? pZ p) sel))
  else 0.

Definition bounding_box (sel : list point) (p50 : float) : float * float :=
  let top := filter (fun p => p50 <=? pZ p) sel in
  if (length top <? 2)%nat then (0, 0)
  else
    let width := np_max (map pX top) - np_min (map pX top) in
    let length := np_max (map pY top) - np_min (map pY top) in
    let bounding_box_area := width * length in
    let z_max_50 := np_max (map pZ top) in
    let prism_height := z_max_50 - p50 in
    let prism_height := if prism_height <? 0 then 0 else prism_height in
    (bounding_box_area, bounding_box_area * prism_height).

Definition metrics (ground_level : float) (points : list point) : report :=
  let sel := above_015 ground_level points in
  let Z_above_015 := map pZ sel in
  let p50 := np_percentile Z_above_015 50 in
  let p60 := np_percentile Z_above_015 60 in
  let p70 := np_percentile Z_above_015 70 in
  let p80 := np_percentile Z_above_015 80 in
  let p90 := np_percentile Z_above_015 90 in
  let box := bounding_box sel p50 in
  mkReport (List.length sel) p50 p60 p70 p80 p90
           (count_ge Z_above_015 p50) (count_ge Z_above_015 p60)
           (count_ge Z_above_015 p70) (count_ge Z_above_015 p80)
           (count_ge Z_above_015 p90)
           (avg_int sel p50) (avg_int sel p60) (avg_int sel p70)
           (avg_int sel p80) (avg_int sel p90)
           (fst box) (snd box)
           (np_percentile (map pZ (above_plane ground_level points)) 99.5).

(** The printed output and the returned value; the figure is not part of
    the model. *)
Definition calculate_plant_height_and_plot (txt_file : File)
  : result (stdout * number) :=
  points <- load_txt_point_cloud txt_file ;;
  plane <- estimate_ground points ;;
  let '(_, _, ground_level) := plane in
  if (length (above_015 ground_level points) =? 0)%nat then
    Ok (NoPointsAbove015, PyInt 0)
  else
    let r := metrics ground_level points in
    Ok (Printed r, NpFloat (p99_top_z r)).

End Pipeline.

End CropParametersFloat.

(** Tables in float64 and stand-ins for the library calls. *)

Module FloatSamples.

Import PrimFloat CropParametersFloat.

Open Scope float_scope.

Definition of_nat (n : nat) : float := of_uint63 (Uint63.of_Z (Z.of_nat n)).

(** Minimum and maximum that return NaN when the array holds one. *)
Definition fold_min (a : list float) : float :=
  match a with
  | [] => nan
  | x :: a' =>
      fold_left (fun m y => if is_nan m then m
                            else if is_nan y then y
                            else if y <? m then y else m) a' x
  end.

Definition fold_max (a : list float) : float :=
  match a with
  | [] => nan
  | x :: a' =>
      fold_left (fun m y => if is_nan m then m
                            else if is_nan y then y
                            else if m <? y then y else m) a' x
  end.

Fixpoint insert (x : float) (s : list float) : list float :=
  match s with
  | [] => [x]
  | y :: s' => if x <=? y then x :: s else y :: insert x s'
  end.

Definition sort (a : list float) : list float := fold_right insert [] a.

(** The greatest [k <= bound] with [k <= v]. *)
Fixpoint floor_below (bound : nat) (v : float) : nat :=
  match bound with
  | O => O
  | S b => if of_nat bound <=? v then bound else floor_below b v
  end.

(** Linear interpolation between the two order statistics around the
    rank [(n - 1) * q / 100]. *)
Definition percentile (a : list float) (q : float) : float :=
  let s := sort a in
  let n := List.length s in
  let v := of_nat (n - 1) * (q / 100) in
  let k := floor_below (n - 1) v in
  let t := v - of_nat k in
  let lo := nth k s nan in
  let hi := nth (Nat.min (S k) (n - 1)) s nan in
  if 0.5 <=? t then hi - (hi - lo) * (1 - t) else lo + (hi - lo) * t.

Definition sum (a : list float) : float := fold_left add a 0.

Definition mean (a : list float) : float := sum a / of_nat (List.length a).

Definition mean_axis0 (points : list (float * float * float))
  : float * float * float :=
  (mean (map (fun p => fst (fst p)) points),
   mean (map (fun p => snd (fst p)) points),
   mean (map snd points)).

(** The normal of a horizontal plane. *)
Definition horizontal (_ : list (float * float * float))
  : result (float * float * float) := Ok (0, 0, 1).

Definition dot (n p : float * float * float) : float :=
  fst (fst n) * fst (fst p) + snd (fst n) * snd (fst p) + snd n * snd p.

Definition loaded (data : ndarray) : result ndarray := Ok data.

Definition calculate : ndarray -> result (stdout * number) :=
  calculate_plant_height_and_plot loaded fold_min fold_max percentile mean
    mean_axis0 horizontal dot.

Definition estimate (points : list point)
  : result (float * float * float * float * float) :=
  estimate_ground fold_min fold_max percentile mean_axis0 horizontal dot points.

(** Three candidates at Z = 0, 1, 2 (the threshold is about 2.31) and a
    canopy point. *)
Definition staircase : ndarray :=
  Array2 4 [[0; 0; 0; 10]; [10; 1; 1; 20]; [0; 2; 2; 30]; [5; 1; 9; 40]].

(** Three soil points at Z = 0.5 and two points at Z = 0.625, above the
    ground threshold and less than 0.15 above the soil. *)
Definition stubble : ndarray :=
  Array2 4 [[0; 0; 0.5; 10]; [0.25; 0; 0.5; 20]; [0; 1; 0.5; 30];
            [0.125; 0.5; 0.625; 40]; [0.125; 0.25; 0.625; 50]].

(** Four soil points at Z = 0.5 and nothing else. *)
Definition bare_soil : ndarray :=
  Array2 4 [[0; 0; 0.5; 10]; [0.25; 0; 0.5; 20]; [0; 1; 0.5; 30];
            [0.25; 1; 0.5; 40]].

(** Three soil points at Z = 0.5, a point below the soil, a low point and
    two canopy points, 1 and 2 above the soil. *)
Definition canopy : ndarray :=
  Array2 4 [[0; 0; 0.5; 10]; [0.25; 0; 0.5; 20]; [0; 1; 0.5; 30];
            [0.125; 0.5; 0.625; 40]; [0.125; 0.25; 1.5; 50];
            [0.25; 0.75; 2.5; 60]].

(** The table [canopy] with a fifth column. *)
Definition canopy_with_time : ndarray :=
  Array2 5 [[0; 0; 0.5; 10; 1]; [0.25; 0; 0.5; 20; 2]; [0; 1; 0.5; 30; 3];
            [0.125; 0.5; 0.625; 40; 4]; [0.125; 0.25; 1.5; 50; 5];
            [0.25; 0.75; 2.5; 60; 6]].

(** The table [canopy] with one height that is not a number. *)
Definition canopy_with_gap : ndarray :=
  Array2 4 [[0; 0; 0.5; 10]; [0.25; 0; 0.5; 20]; [0; 1; 0.5; 30];
            [0.125; 0.5; nan; 40]; [0.125; 0.25; 1.5; 50];
            [0.25; 0.75; 2.5; 60]].

(** One data row, as [np.loadtxt] returns it. *)
Definition single_row : ndarray := Array1 [0; 0; 0.5; 10].

(** The rows of a two-dimensional sample as points. *)
Definition points_of (data : ndarray) : list point :=
  match data with
  | Array1 _ => []
  | Array2 _ rows => map row_point rows
  end.

End FloatSamples.

(** ** Properties of the canopy-metrics script *)

Module CropParametersTheory.

Import CropParameters Samples.

Open Scope Q_scope.

Section Pipeline.

Variable Real : Type.
Variable pca_last_component : list (Q * Q * Q) -> Real * Real * Real.
Variable neg_dot : Real * Real * Real -> Q * Q * Q -> Real.

(** C3 (amended).  For a cloud whose analysis set has the heights
    0.15, 0.2, ..., 0.9, 1.0 the reported 50th percentile is 0.55 and five
    analysis points lie at or above it. *)
Theorem scenario_p50_and_count (g : Q) (points : list point) :
  map pZ (above_015 g points) = scenario_heights ->
  p50 (metrics g points) == 55 # 100
  /\ count_top_50 (metrics g points) = 5%nat.
Proof.
  intros H. unfold metrics. simpl. rewrite H. split.
  - vm_compute. reflexivity.
  - vm_compute. reflexivity.
Qed.

End Pipeline.

(** Counterexample to C3 as stated: the 50th percentile of the scenario's
    analysis set is not 0.575. *)
Lemma scenario_p50_is_not_0575 :
  map pZ (above_015 0 scenario_cloud) = scenario_heights
  /\ p50 (metrics 0 scenario_cloud) == 55 # 100
  /\ ~ p50 (metrics 0 scenario_cloud) == 575 # 1000.
Proof.
  split; [vm_compute; reflexivity|].
  split; [vm_compute; reflexivity|].
  vm_compute. discriminate.
Qed.

Lemma scenario_p50_and_count_witness :
  p50 (metrics 0 scenario_cloud) == 55 # 100
  /\ count_top_50 (metrics 0 scenario_cloud) = 5%nat.
Proof.
  apply (scenario_p50_and_count 0 scenario_cloud).
  vm_compute. reflexivity.
Defined.

End CropParametersTheory.

(** ** Properties of the canopy-metrics script in float64 arithmetic *)

Module CropParametersFloatTheory.

Import PrimFloat CropParametersFloat FloatSamples.

Open Scope float_scope.

Lemma length_zero_filter (A : Type) (p : A -> bool) (l : list A) :
  (length (filter p l) =? 0)%nat = true <-> forall x, In x l -> p x = false.
Proof.
  rewrite Nat.eqb_eq, length_zero_iff_nil. split.
  - intros H x Hx. destruct (p x) eqn:E; [|reflexivity].
    assert (Hin : In x (filter p l)) by (apply filter_In; now split).
    rewrite H in Hin. destruct Hin.
  - intros H. induction l as [|a l IH]; [reflexivity|].
    simpl. rewrite (H a) by now left.
    apply IH. intros x Hx. apply H. now right.
Qed.

(** The normalised heights of the points kept by [above_plane_mask]. *)
Lemma above_plane_heights (g : float) (points : list point) :
  map pZ (above_plane g points)
  = filter (fun z => 0 <=? z) (map (fun p => pZ p - g) points).
Proof.
  unfold above_plane, normalize.
  induction points as [|p points IH]; [reflexivity|].
  cbn [map filter pZ]. destruct (0 <=? pZ p - g); cbn [map pZ]; now rewrite IH.
Qed.

(** The normalised heights of the analysis set. *)
Lemma above_015_heights (g : float) (points : list point) :
  map pZ (above_015 g points)
  = filter (fun z => 0.15 <=? z)
           (filter (fun z => 0 <=? z) (map (fun p => pZ p - g) points)).
Proof.
  rewrite <- above_plane_heights. unfold above_015, dark_threshold.
  induction (above_plane g points) as [|p l IH]; [reflexivity|].
  cbn [map filter]. destruct (0.15 <=? pZ p); cbn [map]; now rewrite IH.
Qed.

Section Pipeline.

Variable File : Type.
Variable np_loadtxt : File -> result ndarray.
Variable np_min : list float -> float.
Variable np_max : list float -> float.
Variable np_percentile : list float -> float -> float.
Variable np_mean : list float -> float.
Variable np_mean_axis0 : list (float * float * float) -> float * float * float.
Variable Normal : Type.
Variable pca_last_component : list (float * float * float) -> result Normal.
Variable np_dot : Normal -> float * float * float -> float.

Local Notation load := (load_txt_point_cloud np_loadtxt).
Local Notation estimate :=
  (estimate_ground np_min np_max np_percentile np_mean_axis0
                   pca_last_component np_dot).
Local Notation calculate :=
  (calculate_plant_height_and_plot np_loadtxt np_min np_max np_percentile
     np_mean np_mean_axis0 pca_last_component np_dot).

Lemma calculate_of_loaded (txt_file : File) (points : list point) :
  load txt_file = Ok points ->
  calculate txt_file
  = (plane <- estimate points ;;
     let '(_, _, ground_level) := plane in
     if (length (above_015 ground_level points) =? 0)%nat then
       Ok (NoPointsAbove015, PyInt 0)
     else
       Ok (Printed (metrics np_min np_max np_percentile np_mean
                            ground_level points),
           NpFloat (np_percentile (map pZ (above_plane ground_level points))
                                  99.5))).
Proof.
  intros H. unfold calculate_plant_height_and_plot. rewrite H. reflexivity.
Qed.

Lemma estimate_of_nonempty (points : list point) :
  points <> [] ->
  estimate points
  = let candidates :=
      filter (fun p =>
                pZ p <=? np_min (map pZ points)
                         + 0.231 * (np_max (map pX points)
                                    - np_min (map pX points)))
             points in
    if (length candidates <? 3)%nat then
      Err (ValueError "Insufficient ground points to fit plane.")
    else
      fit_plane np_mean_axis0 pca_last_component np_dot
        (map xyz
             (filter (fun p => np_percentile (map pZ candidates) 90 <=? pZ p)
                     candidates)).
Proof.
  destruct points as [|p points]; [contradiction|]. intros _. reflexivity.
Qed.

(** C1 (amended).  When [np.loadtxt] returns an array of fewer than two
    dimensions, the run ends in [IndexError].  For a loaded table, let the
    candidates be the points with
    [Z <= min(Z) + 0.231 * (max(X) - min(X))] and the refined points the
    candidates with Z at or above the 90th percentile of the candidate Z
    values, all in float64.  With at least 3 candidates and at least 3
    refined points the ground level is the Z component of
    [np.mean(refined, axis=0)], provided the PCA fit accepts the refined
    points (its error ends the run otherwise); with fewer than 3
    candidates, or fewer than 3 refined points, the estimator and the run
    end in the respective [ValueError]. *)
Theorem ground_level_is_mean_of_refined_points (txt_file : File) :
  (forall values,
     np_loadtxt txt_file = Ok (Array1 values) ->
     calculate txt_file = Err IndexError)
  /\ forall points,
       load txt_file = Ok points ->
       points <> [] ->
       let threshold :=
         np_min (map pZ points)
         + 0.231 * (np_max (map pX points) - np_min (map pX points)) in
       let candidates := filter (fun p => pZ p <=? threshold) points in
       let refined :=
         filter (fun p => np_percentile (map pZ candidates) 90 <=? pZ p)
                candidates in
       ((3 <= length candidates)%nat -> (3 <= length refined)%nat ->
        (forall normal,
           pca_last_component (map xyz refined) = Ok normal ->
           estimate points
           = Ok (normal,
                 - np_dot normal (np_mean_axis0 (map xyz refined)),
                 snd (np_mean_axis0 (map xyz refined))))
        /\ (forall e,
              pca_last_component (map xyz refined) = Err e ->
              calculate txt_file = Err e))
       /\ ((length candidates < 3)%nat ->
           estimate points
           = Err (ValueError "Insufficient ground points to fit plane.")
           /\ calculate txt_file
              = Err (ValueError "Insufficient ground points to fit plane."))
       /\ ((3 <= length candidates)%nat -> (length refined < 3)%nat ->
           estimate points
           = Err (ValueError "Not enough points to fit a plane")
           /\ calculate txt_file
              = Err (ValueError "Not enough points to fit a plane")).
Proof.
  split.
  - intros values H. unfold calculate_plant_height_and_plot,
      load_txt_point_cloud. now rewrite H.
  - intros points Hload Hne threshold candidates refined.
    rewrite (calculate_of_loaded _ Hload), (estimate_of_nonempty Hne).
    cbv zeta. fold threshold. fold candidates. fold refined.
    unfold fit_plane. rewrite length_map.
    split; [|split].
    + intros Hc Hr.
      destruct (Nat.ltb_spec (length candidates) 3) as [C|_]; [lia|].
      destruct (Nat.ltb_spec (length refined) 3) as [R|_]; [lia|].
      split.
      * intros normal Hn. now rewrite Hn.
      * intros e He. now rewrite He.
    + intros Hc.
      destruct (Nat.ltb_spec (length candidates) 3) as [_|C]; [|lia].
      now split.
    + intros Hc Hr.
      destruct (Nat.ltb_spec (length candidates) 3) as [C|_]; [lia|].
      destruct (Nat.ltb_spec (length refined) 3) as [_|R]; [|lia].
      now split.
Qed.

(** C4 (amended).  For a loaded table whose ground level is [g], let the
    kept heights be the float64 differences [Z - g] that are not below 0.
    When one of them is at least 0.15, the returned plant height (also the
    last printed metric) is [np.percentile(kept, 99.5)], taken over all the
    kept heights, those below 0.15 included; when none is, the analysis
    set is empty and the function returns the integer 0 instead. *)
Theorem plant_height_is_p995_of_kept_heights
  (txt_file : File) (points : list point) (normal : Normal) (d g : float) :
  load txt_file = Ok points ->
  estimate points = Ok (normal, d, g) ->
  let kept := filter (fun z => 0 <=? z) (map (fun p => pZ p - g) points) in
  (forall z,
     In z kept <-> exists p, In p points /\ z = pZ p - g /\ (0 <=? z) = true)
  /\ ((exists z, In z kept /\ (0.15 <=? z) = true) ->
      exists r,
        calculate txt_file = Ok (Printed r, NpFloat (np_percentile kept 99.5))
        /\ p99_top_z r = np_percentile kept 99.5)
  /\ ((forall z, In z kept -> (0.15 <=? z) = false) ->
      calculate txt_file = Ok (NoPointsAbove015, PyInt 0)).
Proof.
  intros Hload Hest kept.
  rewrite (calculate_of_loaded _ Hload), Hest. cbn [bind].
  rewrite <- (length_map pZ (above_015 g points)),
    above_015_heights, above_plane_heights.
  fold kept.
  split; [|split].
  - intros z. unfold kept. rewrite filter_In, in_map_iff. split.
    + intros [(p & <- & Hp) Hz]. now exists p.
    + intros (p & Hp & -> & Hz). split; [now exists p | assumption].
  - intros (z & Hz & Hge).
    destruct (Nat.eqb (length (filter (fun z0 => 0.15 <=? z0) kept)) 0) eqn:E.
    + pose proof (proj1 (@length_zero_filter _ _ _) E) as E'.
      rewrite (E' z Hz) in Hge. discriminate.
    + eexists. split; [reflexivity|].
      unfold metrics. cbn [p99_top_z]. now rewrite above_plane_heights.
  - intros Hnone.
    now rewrite (proj2 (@length_zero_filter _ (fun z => 0.15 <=? z) kept) Hnone).
Qed.

(** C7 (amended).  For a loaded table whose ground level is [g]: when no
    point has a float64 height [Z - g] that is both not below 0 and at
    least 0.15, the function prints the notice, prints no metrics, returns
    the integer 0 and raises nothing; this is the only case in which the
    notice is printed, and whenever metrics are printed some point has
    such a height. *)
Theorem empty_analysis_set_prints_notice
  (txt_file : File) (points : list point) (normal : Normal) (d g : float) :
  load txt_file = Ok points ->
  estimate points = Ok (normal, d, g) ->
  ((forall p, In p points ->
              (0 <=? pZ p - g) = true -> (0.15 <=? pZ p - g) = false) ->
   calculate txt_file = Ok (NoPointsAbove015, PyInt 0))
  /\ (forall h,
        calculate txt_file = Ok (NoPointsAbove015, h) ->
        h = PyInt 0
        /\ forall p, In p points ->
                     (0 <=? pZ p - g) = true -> (0.15 <=? pZ p - g) = false)
  /\ (forall r h,
        calculate txt_file = Ok (Printed r, h) ->
        exists p, In p points
                  /\ (0 <=? pZ p - g) = true /\ (0.15 <=? pZ p - g) = true).
Proof.
  intros Hload Hest.
  rewrite (calculate_of_loaded _ Hload), Hest. cbn [bind].
  rewrite <- (length_map pZ (above_015 g points)), above_015_heights.
  set (kept := filter (fun z => 0 <=? z) (map (fun p => pZ p - g) points)).
  assert (Hiff : (forall z, In z kept -> (0.15 <=? z) = false)
                 <-> forall p, In p points ->
                       (0 <=? pZ p - g) = true -> (0.15 <=? pZ p - g) = false).
  { unfold kept. split.
    - intros H p Hp Hz. apply H. apply filter_In. split; [|assumption].
      apply in_map_iff. now exists p.
    - intros H z Hz. apply filter_In in Hz. destruct Hz as [Hz H0].
      apply in_map_iff in Hz. destruct Hz as (p & <- & Hp). now apply H. }
  destruct (Nat.eqb (length (filter (fun z => 0.15 <=? z) kept)) 0) eqn:E.
  - pose proof (proj1 (@length_zero_filter _ _ _) E) as E'. split; [|split].
    + reflexivity.
    + intros h H. inversion H. split; [reflexivity|]. exact (proj1 Hiff E').
    + intros r h H. discriminate H.
  - split; [|split].
    + intros H.
      pose proof (proj2 (@length_zero_filter _ (fun z => 0.15 <=? z) kept)
                    (proj2 Hiff H)) as H'.
      rewrite E in H'. discriminate H'.
    + intros h H. discriminate H.
    + intros r h _.
      destruct (filter (fun z => 0.15 <=? z) kept) as [|z l] eqn:F;
        [discriminate E|].
      assert (Hz : In z (filter (fun z => 0.15 <=? z) kept))
        by (rewrite F; now left).
      apply filter_In in Hz. destruct Hz as [Hz Hge].
      unfold kept in Hz. apply filter_In in Hz. destruct Hz as [Hz H0].
      apply in_map_iff in Hz. destruct Hz as (p & <- & Hp). now exists p.
Qed.

End Pipeline.

(** Counterexample to C1 as stated: three candidates at Z = 0, 1, 2 have a
    90th percentile of about 1.8, one refined point, and the estimator
    refuses the fit. *)
Lemma three_candidates_one_refined_point :
  load_txt_point_cloud loaded staircase = Ok (points_of staircase)
  /\ length (ground_points
               (ground_threshold
                  (fold_min (map pZ (points_of staircase)))
                  (fold_max (map pX (points_of staircase))
                   - fold_min (map pX (points_of staircase))))
               (points_of staircase)) = 3%nat
  /\ estimate (points_of staircase)
     = Err (ValueError "Not enough points to fit a plane")
  /\ calculate staircase = Err (ValueError "Not enough points to fit a plane").
Proof. repeat split; vm_compute; reflexivity. Qed.

Lemma ground_level_is_mean_of_refined_points_witness :
  calculate single_row = Err IndexError
  /\ estimate (points_of canopy) = Ok ((0, 0, 1), - 0.5, 0.5)
  /\ calculate staircase = Err (ValueError "Not enough points to fit a plane").
Proof.
  pose proof (@ground_level_is_mean_of_refined_points ndarray loaded
                fold_min fold_max percentile mean mean_axis0 _ horizontal dot)
    as H.
  split; [|split].
  - exact (proj1 (H single_row) _ eq_refl).
  - assert (Hl : load_txt_point_cloud loaded canopy = Ok (points_of canopy))
      by reflexivity.
    assert (Hne : points_of canopy <> []) by discriminate.
    destruct (proj2 (H canopy) _ Hl Hne) as (H1 & _ & _).
    destruct H1 as [H1 _]; [vm_compute; lia | vm_compute; lia |].
    unfold estimate. rewrite (H1 (0, 0, 1)); [|reflexivity].
    vm_compute. reflexivity.
  - assert (Hl : load_txt_point_cloud loaded staircase
                 = Ok (points_of staircase)) by reflexivity.
    assert (Hne : points_of staircase <> []) by discriminate.
    destruct (proj2 (H staircase) _ Hl Hne) as (_ & _ & H3).
    apply H3; vm_compute; lia.
Defined.

(** Counterexample to C4 as stated: the kept heights 0, 0, 0, 0.125, 0.125
    have a 99.5th percentile of 0.125, and the function returns 0. *)
Lemma low_points_height_not_percentile :
  estimate (points_of stubble) = Ok ((0, 0, 1), - 0.5, 0.5)
  /\ map pZ (above_plane 0.5 (points_of stubble)) = [0; 0; 0; 0.125; 0.125]
  /\ percentile [0; 0; 0; 0.125; 0.125] 99.5 = 0.125
  /\ calculate stubble = Ok (NoPointsAbove015, PyInt 0).
Proof. repeat split; vm_compute; reflexivity. Qed.

Lemma plant_height_is_p995_of_kept_heights_witness :
  (exists r,
     calculate canopy
     = Ok (Printed r, NpFloat (percentile [0; 0; 0; 0.125; 1; 2] 99.5))
     /\ p99_top_z r = percentile [0; 0; 0; 0.125; 1; 2] 99.5)
  /\ percentile [0; 0; 0; 0.125; 1; 2] 99.5 <> percentile [1; 2] 99.5
  /\ calculate stubble = Ok (NoPointsAbove015, PyInt 0).
Proof.
  assert (Hc : load_txt_point_cloud loaded canopy = Ok (points_of canopy))
    by reflexivity.
  assert (Hs : load_txt_point_cloud loaded stubble = Ok (points_of stubble))
    by reflexivity.
  assert (Ec : estimate (points_of canopy) = Ok ((0, 0, 1), - 0.5, 0.5))
    by (vm_compute; reflexivity).
  assert (Es : estimate (points_of stubble) = Ok ((0, 0, 1), - 0.5, 0.5))
    by (vm_compute; reflexivity).
  split; [|split].
  - destruct (@plant_height_is_p995_of_kept_heights ndarray loaded
                fold_min fold_max percentile mean mean_axis0 _ horizontal dot
                canopy _ _ _ _ Hc Ec) as (_ & H & _).
    apply H. exists 2. split; vm_compute; tauto.
  - vm_compute. discriminate.
  - destruct (@plant_height_is_p995_of_kept_heights ndarray loaded
                fold_min fold_max percentile mean mean_axis0 _ horizontal dot
                stubble _ _ _ _ Hs Es) as (_ & _ & H).
    apply H. intros z Hz. vm_compute in Hz.
    repeat (destruct Hz as [<-|Hz]; [reflexivity|]). destruct Hz.
Defined.

(** Counterexample to C7 as stated: on bare soil the script prints the
    notice and returns 0; no metrics, zero or other, are printed. *)
Lemma bare_soil_prints_no_metrics :
  calculate bare_soil = Ok (NoPointsAbove015, PyInt 0)
  /\ forall r h, calculate bare_soil <> Ok (Printed r, h).
Proof.
  assert (H : calculate bare_soil = Ok (NoPointsAbove015, PyInt 0))
    by (vm_compute; reflexivity).
  split; [exact H|]. intros r h. rewrite H. discriminate.
Qed.

Lemma empty_analysis_set_prints_notice_witness :
  calculate stubble = Ok (NoPointsAbove015, PyInt 0)
  /\ exists p, In p (points_of canopy)
               /\ (0 <=? pZ p - 0.5) = true /\ (0.15 <=? pZ p - 0.5) = true.
Proof.
  assert (Hc : load_txt_point_cloud loaded canopy = Ok (points_of canopy))
    by reflexivity.
  assert (Hs : load_txt_point_cloud loaded stubble = Ok (points_of stubble))
    by reflexivity.
  assert (Ec : estimate (points_of canopy) = Ok ((0, 0, 1), - 0.5, 0.5))
    by (vm_compute; reflexivity).
  assert (Es : estimate (points_of stubble) = Ok ((0, 0, 1), - 0.5, 0.5))
    by (vm_compute; reflexivity).
  split.
  - destruct (@empty_analysis_set_prints_notice ndarray loaded
                fold_min fold_max percentile mean mean_axis0 _ horizontal dot
                stubble _ _ _ _ Hs Es) as (H & _ & _).
    apply H. intros p Hp _. vm_compute in Hp.
    repeat (destruct Hp as [<-|Hp]; [vm_compute; reflexivity|]). destruct Hp.
  - destruct (calculate canopy) as [[[|r] h]|e] eqn:E;
      try (vm_compute in E; discriminate E).
    destruct (@empty_analysis_set_prints_notice ndarray loaded
                fold_min fold_max percentile mean mean_axis0 _ horizontal dot
                canopy _ _ _ _ Hc Ec) as (_ & _ & H).
    exact (H r h E).
Defined.

End CropParametersFloatTheory.

(** ** Properties of the converter *)

Module Pcd2CsvTheory.

Import Pcd2Csv Notions.

Open Scope list_scope.
Open Scope nat_scope.

Lemma bind_ok_inv (A B : Type) (r : result A) (k : A -> result B) (b : B) :
  bind r k = Ok b -> exists a, r = Ok a /\ k a = Ok b.
Proof.
  destruct r as [a|e]; simpl; intros H; [now exists a | discriminate].
Qed.

Ltac inv_bind H :=
  let a := fresh "a" in
  let Ha := fresh "H" a in
  apply bind_ok_inv in H; destruct H as (a & Ha & H).

Lemma getitem_ok (A : Type) (t : list A) (i : nat) (x : A) :
  getitem t i = Ok x -> nth_error t i = Some x.
Proof.
  unfold getitem. destruct (nth_error t i); intros H; now inversion H.
Qed.

Lemma mapM_ok_map (A B : Type) (f : A -> result B) (g : A -> B) (l : list A) :
  (forall x, In x l -> f x = Ok (g x)) -> mapM f l = Ok (map g l).
Proof.
  induction l as [|a l IH]; intros H; simpl; [reflexivity|].
  rewrite (H a) by now left. simpl.
  rewrite IH by (intros x Hx; apply H; now right). reflexivity.
Qed.

Lemma mapM_value_error (A B : Type) (f : A -> result B) (l : list A) :
  (forall x, In x l -> is_ok (f x) = false ->
             exists msg, f x = Err (ValueError msg)) ->
  (exists x, In x l /\ is_ok (f x) = false) ->
  exists msg, mapM f l = Err (ValueError msg).
Proof.
  induction l as [|a l IH]; intros Hv [x [Hx Hf]]; [destruct Hx|].
  simpl. destruct (f a) as [b|e] eqn:E.
  - destruct Hx as [<-|Hx]; [rewrite E in Hf; discriminate|].
    destruct IH as [msg Hm].
    + intros y Hy. apply Hv. now right.
    + now exists x.
    + simpl. rewrite Hm. now exists msg.
  - destruct (Hv a (or_introl eq_refl)) as [msg Hm]; [now rewrite E|].
    rewrite E in Hm. inversion Hm; subst. now exists msg.
Qed.

(** *** Record layout *)

Arguments PCD_TYPE_TO_NUMPY_TYPE : simpl never.

Lemma table_supported (k : kind) (s : positive) (t : np_type) :
  PCD_TYPE_TO_NUMPY_TYPE (k, s) = Some t -> In (k, s) supported.
Proof.
  unfold PCD_TYPE_TO_NUMPY_TYPE, supported.
  destruct k;
    repeat (destruct s as [s|s|]; try discriminate);
    intros _; simpl; tauto.
Qed.

Lemma table_itemsize (k : kind) (s : positive) (t : np_type) :
  PCD_TYPE_TO_NUMPY_TYPE (k, s) = Some t -> np_itemsize t = Pos.to_nat s.
Proof.
  unfold PCD_TYPE_TO_NUMPY_TYPE.
  destruct k;
    repeat (destruct s as [s|s|]; try discriminate);
    intros H; inversion H; reflexivity.
Qed.

Lemma expand_length (field : string) (c : positive) :
  length (expand field c) = Pos.to_nat c.
Proof.
  unfold expand. destruct (Pos.eqb_spec c 1) as [->|_]; [reflexivity|].
  now rewrite length_map, length_seq.
Qed.

Lemma itemsize_app (a b : dtype) : itemsize (a ++ b) = itemsize a + itemsize b.
Proof.
  unfold itemsize. now rewrite map_app, list_sum_app.
Qed.

Lemma itemsize_same_type (t : np_type) (l : list string) :
  itemsize (map (fun name => (name, t)) l) = length l * np_itemsize t.
Proof.
  unfold itemsize. induction l as [|a l IH]; simpl; [reflexivity|].
  simpl in IH. now rewrite IH.
Qed.

Lemma build_columns_itemsize (md : MetaData) (fs : list string) :
  forall i cols,
    build_columns md i fs = Ok cols ->
    itemsize cols = list_sum (map (field_bytes md) (seq i (length fs))).
Proof.
  induction fs as [|f fs IH]; intros i cols H; simpl in H.
  - inversion H. reflexivity.
  - inv_bind H. inv_bind H. inv_bind H. inv_bind H. inv_bind H.
    inversion H; subst cols; clear H.
    apply getitem_ok in Ha, Ha0, Ha2.
    destruct (PCD_TYPE_TO_NUMPY_TYPE (a, a0)) as [t|] eqn:T;
      [|discriminate Ha1].
    inversion Ha1; subst a1; clear Ha1.
    rewrite itemsize_app, itemsize_same_type, expand_length.
    rewrite (IH _ _ Ha3). simpl. f_equal.
    unfold field_bytes.
    rewrite (nth_error_nth _ _ _ Ha0), (nth_error_nth _ _ _ Ha2).
    rewrite (table_itemsize _ _ T). lia.
Qed.

Lemma np_dtype_ok (cols : list (string * np_type)) (dt : dtype) :
  np_dtype cols = Ok dt -> dt = cols /\ first_repeated [] (names cols) = None.
Proof.
  unfold np_dtype, names. destruct (first_repeated [] (map fst cols));
    intros H; inversion H. auto.
Qed.

Lemma build_dtype_columns (md : MetaData) (dt : dtype) :
  build_dtype md = Ok dt ->
  build_columns md 0 (fields md) = Ok dt
  /\ first_repeated [] (names dt) = None.
Proof.
  unfold build_dtype. intros H. inv_bind H.
  apply np_dtype_ok in H. destruct H as [-> H]. auto.
Qed.

Lemma build_dtype_itemsize (md : MetaData) (dt : dtype) :
  build_dtype md = Ok dt -> itemsize dt = stride md.
Proof.
  intros H. apply build_dtype_columns in H. destruct H as [H _].
  now apply build_columns_itemsize in H.
Qed.

(** *** Binary decoding *)

Lemma items_length (k n : nat) (buffer : list byte) :
  length (items k n buffer) = k.
Proof.
  revert buffer. induction k as [|k IH]; intros buffer; simpl; [reflexivity|].
  now rewrite IH.
Qed.

Lemma frombuffer_whole (dt : dtype) (buffer : list byte) (k : nat) :
  (0 < itemsize dt)%nat ->
  length buffer = (k * itemsize dt)%nat ->
  exists recs, frombuffer buffer dt = Ok recs /\ length recs = k.
Proof.
  intros Hn Hl. unfold frombuffer.
  destruct (Nat.eqb_spec (itemsize dt) 0) as [E|_]; [lia|].
  rewrite Hl, Nat.Div0.mod_mul, Nat.eqb_refl.
  eexists. split; [reflexivity|].
  rewrite length_map, items_length. apply Nat.div_mul. lia.
Qed.

Lemma frombuffer_ragged (dt : dtype) (buffer : list byte) (k : nat) :
  (2 <= itemsize dt)%nat ->
  (length buffer + 1 = S k * itemsize dt)%nat ->
  frombuffer buffer dt
  = Err (ValueError "buffer size must be a multiple of element size").
Proof.
  intros Hn Hl. unfold frombuffer.
  destruct (Nat.eqb_spec (itemsize dt) 0) as [E|_]; [lia|].
  replace (length buffer) with ((itemsize dt - 1) + k * itemsize dt)%nat
    by (simpl in Hl; lia).
  rewrite Nat.Div0.mod_add, Nat.mod_small by lia.
  destruct (Nat.eqb_spec (itemsize dt - 1) 0) as [E|_]; [lia|reflexivity].
Qed.

Section Decoder.

Variable loadtxt : list byte -> list np_type -> result (list (list scalar)).

(** C2 (amended).  The record stride is the sum over the header fields of
    [size[i] * count[i]].  Binary decoding reads at most
    [points * stride] bytes of the body; a body of exactly that many bytes
    decodes into [points] records when the stride is positive (or
    [points] is 0); with a stride of at least 2 bytes and [points > 0], a
    body one byte shorter raises [ValueError]. *)
Theorem binary_decoding_by_stride
  (md : MetaData) (dt : dtype) (body : list byte) :
  build_dtype md = Ok dt ->
  data md = BINARY ->
  itemsize dt = stride md
  /\ _parse_pc_data loadtxt body md
     = _parse_pc_data loadtxt
         (firstn (N.to_nat (points md) * stride md) body) md
  /\ (length body = (N.to_nat (points md) * stride md)%nat ->
      (0 < stride md)%nat \/ points md = 0%N ->
      exists recs,
        _parse_pc_data loadtxt body md = Ok (mkArray dt recs)
        /\ length recs = N.to_nat (points md))
  /\ ((length body + 1 = N.to_nat (points md) * stride md)%nat ->
      (2 <= stride md)%nat ->
      exists msg, _parse_pc_data loadtxt body md = Err (ValueError msg)).
Proof.
  intros Hdt Hbin.
  pose proof (build_dtype_itemsize _ Hdt) as Hsz.
  split; [exact Hsz|].
  unfold _parse_pc_data. rewrite Hdt, Hbin. simpl. rewrite Hsz.
  split; [|split].
  - destruct (0 <? points md)%N; [|reflexivity].
    now rewrite firstn_firstn, Nat.min_id.
  - intros Hl Hpos.
    destruct (N.ltb_spec 0 (points md)) as [Hp|Hp].
    + destruct Hpos as [Hpos|Hz]; [|lia].
      rewrite <- Hl, firstn_all.
      destruct (@frombuffer_whole dt body (N.to_nat (points md)))
        as [recs [Hr Hn]]; [lia | now rewrite Hsz |].
      rewrite Hr. simpl. now exists recs.
    + exists []. split; [reflexivity|]. simpl. lia.
  - intros Hl Hst.
    destruct (N.ltb_spec 0 (points md)) as [Hp|Hp].
    + rewrite firstn_all2 by lia.
      destruct (N.to_nat (points md)) as [|k] eqn:Ek; [lia|].
      rewrite (@frombuffer_ragged dt body k) by (rewrite ?Hsz; lia).
      simpl. eauto.
    + replace (N.to_nat (points md)) with 0%nat in Hl by lia. simpl in Hl. lia.
Qed.

End Decoder.

(** *** Header parsing *)

Lemma read_header_length (fp : list (list byte)) :
  forall lines,
    length lines < 10 -> length (fst (read_header lines fp)) <= 10.
Proof.
  induction fp as [|bline fp IH]; intros lines Hl; cbn [read_header fst];
    [lia|].
  destruct (startswith (strip (decode bline)) "#"
            || (String.length (strip (decode bline)) =? 0)).
  - now apply IH.
  - destruct (startswith (strip (decode bline)) "DATA"
              || (10 <=? length (lines ++ [strip (decode bline)]))) eqn:S.
    + cbn [fst]. rewrite length_app. cbn [length]. lia.
    + apply IH.
      apply orb_false_iff in S. destruct S as [_ S].
      now apply Nat.leb_gt in S.
Qed.

Lemma read_header_stops (fp more : list (list byte)) :
  forall lines,
    length lines < 10 ->
    length (fst (read_header lines fp)) = 10 ->
    read_header lines (fp ++ more)
    = (fst (read_header lines fp), snd (read_header lines fp) ++ more).
Proof.
  induction fp as [|bline fp IH]; intros lines Hl H10;
    cbn [read_header fst snd app] in *; [lia|].
  destruct (startswith (strip (decode bline)) "#"
            || (String.length (strip (decode bline)) =? 0)).
  - now apply IH.
  - destruct (startswith (strip (decode bline)) "DATA"
              || (10 <=? length (lines ++ [strip (decode bline)]))) eqn:S.
    + reflexivity.
    + apply IH; [|assumption].
      apply orb_false_iff in S. destruct S as [_ S].
      now apply Nat.leb_gt in S.
Qed.

Section Header.

Variable float : string -> result Q.
Variable random_suffix : nat -> string.

Let parse_line := parse_line float random_suffix.
Let parse_lines := parse_lines float random_suffix.
Let parse_header := parse_header float random_suffix.

Ltac present_same k :=
  unfold present; simpl;
  repeat match goal with
         | |- context [String.eqb k ?c] =>
             destruct (String.eqb_spec k c); [try reflexivity; congruence|]
         end;
  reflexivity.

Lemma parse_line_present (st st' : header_dict * nat) (line k : string) :
  parse_line st line = Ok st' ->
  line_key line <> Some k ->
  present (fst st') k = present (fst st) k.
Proof.
  unfold parse_line, Pcd2Csv.parse_line, line_key.
  destruct st as [h draws].
  destruct (startswith line "#" || (String.length line <? 2)).
  { intros H _. now inversion H. }
  destruct (header_match line) as [[group1 group2]|].
  2:{ intros H _. now inversion H. }
  intros H Hk.
  assert (Hne : lower group1 <> k) by congruence. clear Hk.
  repeat match type of H with
         | (if String.eqb ?a ?c then _ else _) = _ =>
             destruct (String.eqb_spec a c) as [E|_]
         end;
    try (rewrite E in Hne; clear E);
    repeat inv_bind H;
    try (destruct (rename_anonymous random_suffix draws (split group2)));
    inversion H; subst; try reflexivity;
    present_same k.
Qed.

Lemma parse_lines_present (lines : list string) (k : string) :
  forall st st',
    parse_lines st lines = Ok st' ->
    (forall l, In l lines -> line_key l <> Some k) ->
    present (fst st') k = present (fst st) k.
Proof.
  induction lines as [|line lines IH]; intros st st' H Hk; simpl in H.
  - now inversion H.
  - unfold parse_lines in H. simpl in H. inv_bind H.
    rewrite (IH _ _ H) by (intros l Hl; apply Hk; now right).
    apply (@parse_line_present _ _ line); [assumption|].
    apply Hk. now left.
Qed.

Lemma validate_requires (h : header_dict) (md : MetaData) (k : string) :
  validate h = Ok md -> In k required_keys -> present h k = true.
Proof.
  unfold validate, validated. intros H Hk.
  destruct (h_fields h) eqn:E1; [|discriminate].
  destruct (h_size h) eqn:E2; [|discriminate].
  simpl in H. inv_bind H.
  destruct (h_type h) eqn:E3; [|discriminate].
  inv_bind H.
  destruct (h_count h) eqn:E4; [|discriminate].
  inv_bind H.
  destruct (h_points h) eqn:E5; [|discriminate].
  inv_bind H.
  destruct (h_width h) eqn:E6; [|discriminate].
  unfold required_keys in Hk. simpl in Hk.
  unfold present.
  repeat (destruct Hk as [<-|Hk];
          [simpl; rewrite ?E1, ?E2, ?E3, ?E4, ?E5, ?E6; reflexivity|]).
  destruct Hk.
Qed.

Lemma validate_default_data (h : header_dict) (md : MetaData) :
  validate h = Ok md -> present h "data" = false -> data md = BINARY.
Proof.
  unfold validate. intros H Hd.
  unfold present in Hd. simpl in Hd.
  destruct (h_data h); [discriminate|].
  repeat inv_bind H. inversion H; subst; simpl.
  simpl in Ha7. now inversion Ha7.
Qed.

Lemma parse_header_inv (lines : list string) (md : MetaData) :
  parse_header lines = Ok md ->
  exists st, parse_lines (empty_header, 0) lines = Ok st
             /\ validate (fst st) = Ok md.
Proof.
  unfold parse_header, Pcd2Csv.parse_header. intros H. inv_bind H.
  now exists a.
Qed.

Lemma parse_header_needs (lines : list string) (k : string) :
  In k required_keys ->
  (forall l, In l lines -> line_key l <> Some k) ->
  exists e, parse_header lines = Err e.
Proof.
  intros Hk Hl.
  destruct (parse_header lines) as [md|e] eqn:E; [|now exists e].
  apply parse_header_inv in E. destruct E as (st & Hp & Hv).
  pose proof (validate_requires _ Hv Hk) as Hpres.
  rewrite (parse_lines_present _ _ Hp Hl) in Hpres.
  unfold required_keys in Hk. simpl in Hk.
  repeat (destruct Hk as [<-|Hk]; [discriminate Hpres|]).
  destruct Hk.
Qed.

Lemma build_columns_covers (md : MetaData) (fs : list string) :
  forall i cols,
    build_columns md i fs = Ok cols ->
    forall j, j < length fs ->
      exists t s c,
        nth_error (type md) (i + j) = Some t
        /\ nth_error (size md) (i + j) = Some s
        /\ nth_error (count md) (i + j) = Some c
        /\ In (t, s) supported.
Proof.
  induction fs as [|f fs IH]; intros i cols H j Hj; simpl in *; [lia|].
  inv_bind H. inv_bind H. inv_bind H. inv_bind H. inv_bind H.
  apply getitem_ok in Ha, Ha0, Ha2.
  destruct (PCD_TYPE_TO_NUMPY_TYPE (a, a0)) as [t|] eqn:T;
    [|discriminate Ha1].
  destruct j as [|j].
  - rewrite Nat.add_0_r. exists a, a0, a2.
    repeat split; try assumption. now apply table_supported in T.
  - replace (i + S j) with (S i + j) by lia.
    apply (IH _ _ Ha3). lia.
Qed.

(** C5 (amended).  Header parsing fails whenever no line supplies one of
    the keys without default (fields, size, type, count, points, width).
    It checks neither the (type, size) pairs nor the agreement of the
    four lengths; the layout builder succeeds only if every field index has
    a type, a size and a count with a supported (type, size) pair, so that
    [len(fields)] is at most [len(size)], [len(type)] and [len(count)]. *)
Theorem header_checks (lines : list string) :
  (forall k, In k required_keys ->
     (forall l, In l lines -> line_key l <> Some k) ->
     exists e, Pcd2Csv.parse_header float random_suffix lines = Err e)
  /\
  (forall md dt,
     Pcd2Csv.parse_header float random_suffix lines = Ok md ->
     build_dtype md = Ok dt ->
     length (fields md) <= length (size md)
     /\ length (fields md) <= length (type md)
     /\ length (fields md) <= length (count md)
     /\ forall i, i < length (fields md) ->
          In (nth i (type md) F, nth i (size md) 1%positive) supported).
Proof.
  split.
  - intros k Hk Hl. now apply parse_header_needs with (k := k).
  - intros md dt _ Hdt.
    apply build_dtype_columns in Hdt. destruct Hdt as [Hc _].
    pose proof (build_columns_covers _ _ _ Hc) as Hcov. simpl in Hcov.
    assert (Hlen : forall j, j < length (fields md) ->
              j < length (size md) /\ j < length (type md)
              /\ j < length (count md)).
    { intros j Hj. destruct (Hcov j Hj) as (t & s & c & Ht & Hs & Hct & _).
      repeat split; apply nth_error_Some; congruence. }
    destruct (length (fields md)) as [|n] eqn:En.
    + repeat split; try lia.
    + destruct (Hlen n) as (H1 & H2 & H3); [lia|].
      repeat split; try lia.
      intros i Hi. destruct (Hcov i Hi) as (t & s & c & Ht & Hs & _ & Hin).
      now rewrite (nth_error_nth _ _ _ Ht), (nth_error_nth _ _ _ Hs).
Qed.

(** C9.  Header reading collects at most 10 non-comment, non-empty lines.
    Once 10 are collected the loop has stopped, whatever the lines said:
    anything that follows in the file is left unread by the header reader
    and is never parsed.  If none of the collected lines carries the key
    [data], an accepted header has the default encoding, binary. *)
Theorem header_reading_is_capped (fp more : list (list byte)) :
  let lines := fst (read_header [] fp) in
  length lines <= 10
  /\ (length lines = 10 ->
      read_header [] (fp ++ more) = (lines, snd (read_header [] fp) ++ more))
  /\ ((forall l, In l lines -> line_key l <> Some "data"%string) ->
      forall md,
        Pcd2Csv.parse_header float random_suffix lines = Ok md ->
        data md = BINARY).
Proof.
  cbv zeta. split; [|split].
  - apply read_header_length. simpl. lia.
  - intros H. apply read_header_stops; [simpl; lia | assumption].
  - intros Hno md Hmd.
    apply parse_header_inv in Hmd. destruct Hmd as (st & Hp & Hv).
    apply (validate_default_data _ Hv).
    now rewrite (parse_lines_present _ _ Hp Hno).
Qed.

End Header.

(** *** Column names and column selection *)

Lemma skipn_nth_error (A : Type) (l : list A) :
  forall i x, nth_error l i = Some x -> skipn i l = x :: skipn (S i) l.
Proof.
  induction l as [|a l IH]; intros [|i] x H; simpl in H; try discriminate.
  - now inversion H.
  - apply IH in H. exact H.
Qed.

Lemma names_same_type (t : np_type) (l : list string) (rest : dtype) :
  names (map (fun name => (name, t)) l ++ rest) = l ++ names rest.
Proof.
  unfold names. rewrite map_app, map_map. simpl. now rewrite map_id.
Qed.

Lemma build_columns_names (md : MetaData) (fs : list string) :
  forall i cols,
    build_columns md i fs = Ok cols ->
    names cols = flat_map expand_pair (combine fs (skipn i (count md))).
Proof.
  induction fs as [|f fs IH]; intros i cols H; simpl in H.
  - now inversion H.
  - inv_bind H. inv_bind H. inv_bind H. inv_bind H. inv_bind H.
    inversion H; subst cols; clear H.
    apply getitem_ok in Ha2.
    rewrite names_same_type, (skipn_nth_error _ _ Ha2). simpl.
    now rewrite (IH _ _ Ha3).
Qed.

Lemma build_dtype_names (md : MetaData) (dt : dtype) :
  build_dtype md = Ok dt ->
  names dt = flat_map expand_pair (combine (fields md) (count md)).
Proof.
  intros H. apply build_dtype_columns in H. destruct H as [H _].
  now apply build_columns_names in H.
Qed.

Lemma contains_In (l : list string) (x : string) :
  contains l x = true <-> In x l.
Proof.
  unfold contains. rewrite existsb_exists. split.
  - intros [y [Hy E]]. apply String.eqb_eq in E. now subst.
  - intros H. exists x. split; [assumption | apply String.eqb_refl].
Qed.

Lemma column_known (a : ndarray) (f : string) :
  contains (names (arr_dtype a)) f = true ->
  column a f = Ok (column_type a f, map (column_value a f) (records a)).
Proof. unfold column, column_type, column_value. now intros ->. Qed.

Lemma column_unknown (a : ndarray) (f : string) :
  contains (names (arr_dtype a)) f = false ->
  column a f = Err (ValueError ("no field of name " ++ f)%string).
Proof. unfold column. now intros ->. Qed.

Lemma map_seq_nth (A B : Type) (F : A -> B) (d : A) (l : list A) :
  map (fun r => F (nth r l d)) (seq 0 (length l)) = map F l.
Proof.
  induction l as [|a l IH]; simpl; [reflexivity|].
  f_equal. rewrite <- seq_shift, map_map. exact IH.
Qed.

Lemma nth_of_column (i r : nat) (recs : list (list scalar)) :
  nth r (map (fun rec => nth i rec (Int 0)) recs) (Int 0)
  = nth i (nth r recs []) (Int 0).
Proof.
  rewrite <- (map_nth (fun rec => nth i rec (Int 0)) recs [] r).
  now destruct i.
Qed.

Lemma nth_index_map (A : Type) (g : string -> A) (d : A) (l : list string)
  (f : string) :
  In f l -> nth (index l f) (map g l) d = g f.
Proof.
  induction l as [|y l IH]; intros Hf; [destruct Hf|].
  simpl. destruct (String.eqb_spec y f) as [->|Hne]; [reflexivity|].
  destruct Hf as [Hf|Hf]; [contradiction|]. now apply IH.
Qed.

Lemma first_repeated_none (names : list string) :
  forall seen,
    first_repeated seen names = None ->
    NoDup names /\ forall x, In x names -> ~ In x seen.
Proof.
  induction names as [|n ns IH]; intros seen H; simpl in H.
  - split; [constructor | intros x []].
  - destruct (existsb (String.eqb n) seen) eqn:E; [discriminate|].
    destruct (IH _ H) as [Hnd Hdis].
    assert (Hn : ~ In n seen).
    { intros Hin. apply (proj2 (contains_In seen n)) in Hin.
      unfold contains in Hin. congruence. }
    split.
    + constructor; [|assumption].
      intros Hin. apply (Hdis n Hin). now left.
    + intros x [<-|Hx]; [assumption|].
      intros Hs. apply (Hdis x Hx). now right.
Qed.

Lemma map_index_nodup (l : list string) :
  NoDup l -> map (index l) l = seq 0 (length l).
Proof.
  induction 1 as [|a l Ha Hnd IH]; simpl; [reflexivity|].
  rewrite String.eqb_refl. f_equal.
  rewrite <- seq_shift, <- IH, map_map.
  apply map_ext_in. intros x Hx.
  destruct (String.eqb_spec a x) as [->|_]; [contradiction | reflexivity].
Qed.

(** With distinct names, the types of the columns taken by name are the
    types of the layout. *)
Lemma column_types_nodup (a : ndarray) :
  NoDup (names (arr_dtype a)) ->
  map (column_type a) (names (arr_dtype a)) = map snd (arr_dtype a).
Proof.
  intros Hnd. unfold column_type.
  rewrite <- (map_map (index (names (arr_dtype a)))
                      (fun j => nth j (map snd (arr_dtype a)) float64)).
  rewrite (map_index_nodup Hnd).
  replace (length (names (arr_dtype a)))
    with (length (map snd (arr_dtype a)))
    by (unfold names; now rewrite !length_map).
  rewrite (map_seq_nth (fun t => t) float64 (map snd (arr_dtype a))).
  apply map_id.
Qed.

Lemma np_type_eqb_eq (t1 t2 : np_type) :
  np_type_eqb t1 t2 = true <-> t1 = t2.
Proof.
  unfold np_type_eqb. rewrite Nat.eqb_eq. split; [|now intros ->].
  destruct t1, t2; simpl; intros H; try reflexivity; discriminate.
Qed.

Section Clouds.

Variable float : string -> result Q.
Variable random_suffix : nat -> string.
Variable loadtxt : list byte -> list np_type -> result (list (list scalar)).
Variable np_result_type : list np_type -> np_type.
Variable astype : np_type -> np_type -> scalar -> scalar.
Variable np_str : np_type -> scalar -> string.

Let from_fileobj := from_fileobj float random_suffix loadtxt.

Lemma cast_same (t : np_type) (s : scalar) : cast astype t t s = s.
Proof.
  unfold cast. now rewrite (proj2 (np_type_eqb_eq t t) eq_refl).
Qed.

Lemma common_type_same (t : np_type) (ts : list np_type) :
  ts <> [] -> (forall t', In t' ts -> t' = t) ->
  common_type np_result_type ts = t.
Proof.
  destruct ts as [|t0 ts]; [contradiction|]. intros _ H.
  assert (E : t0 = t) by (apply H; now left). subst t0.
  unfold common_type.
  replace (forallb (np_type_eqb t) ts) with true; [reflexivity|].
  symmetry. apply forallb_forall. intros t' Ht'.
  apply np_type_eqb_eq. symmetry. apply H. now right.
Qed.

Lemma vstack_T_columns (a : ndarray) (req : list string) :
  vstack_T np_result_type astype (length (records a))
           (map (fun f => (column_type a f, map (column_value a f) (records a)))
                req)
  = mkMatrix (length (records a), length req)
             (stacked_type np_result_type a req)
             (selection (cast astype) (stacked_type np_result_type a req)
                        a req).
Proof.
  unfold vstack_T, selection, stacked_type.
  rewrite length_map, map_map. cbn [fst]. f_equal.
  rewrite <- (map_seq_nth
                (fun rec =>
                   map (fun f =>
                          cast astype (column_type a f)
                               (common_type np_result_type
                                            (map (column_type a) req))
                               (column_value a f rec)) req)
                [] (records a)).
  apply map_ext. intros r. rewrite map_map.
  apply map_ext. intros f. cbn [fst snd]. f_equal.
  unfold column_value. apply nth_of_column.
Qed.

Lemma numpy_selected (pc : PointCloud) (req : list string) :
  req <> [] ->
  points (metadata pc) <> 0%N ->
  (forall f, In f req -> In f (names (arr_dtype (pc_data pc)))) ->
  numpy np_result_type astype pc (Some req)
  = Ok (mkMatrix (length (records (pc_data pc)), length req)
                 (stacked_type np_result_type (pc_data pc) req)
                 (selection (cast astype)
                            (stacked_type np_result_type (pc_data pc) req)
                            (pc_data pc) req)).
Proof.
  intros Hreq Hp Hin. unfold numpy.
  destruct req as [|r0 req]; [contradiction|].
  cbn [length Nat.eqb].
  destruct (N.eqb_spec (points (metadata pc)) 0) as [E|_]; [contradiction|].
  rewrite (@mapM_ok_map _ _ (column (pc_data pc))
             (fun f => (column_type (pc_data pc) f,
                        map (column_value (pc_data pc) f)
                            (records (pc_data pc))))).
  - cbn [bind]. now rewrite vstack_T_columns.
  - intros f Hf. apply column_known. apply contains_In. now apply Hin.
Qed.

Lemma numpy_unknown (pc : PointCloud) (req : list string) :
  points (metadata pc) <> 0%N ->
  (exists f, In f req /\ ~ In f (names (arr_dtype (pc_data pc)))) ->
  exists msg, numpy np_result_type astype pc (Some req) = Err (ValueError msg).
Proof.
  intros Hp [f [Hf Hn]]. unfold numpy.
  destruct req as [|r0 req]; [destruct Hf|].
  cbn [length Nat.eqb].
  destruct (N.eqb_spec (points (metadata pc)) 0) as [E|_]; [contradiction|].
  destruct (@mapM_value_error _ _ (column (pc_data pc)) (r0 :: req))
    as [msg Hm].
  - intros x _ Hx. unfold column in *.
    destruct (contains (names (arr_dtype (pc_data pc))) x);
      [discriminate | eauto].
  - exists f. split; [assumption|].
    rewrite column_unknown; [reflexivity|].
    destruct (contains (names (arr_dtype (pc_data pc))) f) eqn:C;
      [|reflexivity].
    apply contains_In in C. contradiction.
  - rewrite Hm. now exists msg.
Qed.

Lemma numpy_empty_cloud (pc : PointCloud) (req : list string) :
  points (metadata pc) = 0%N ->
  numpy np_result_type astype pc (Some req)
  = Ok (mkMatrix (0, length req) float64 []).
Proof.
  intros Hp. unfold numpy. destruct req as [|r0 req]; [reflexivity|].
  cbn [length Nat.eqb]. now rewrite Hp.
Qed.

Lemma parse_pc_data_dtype (body : list byte) (md : MetaData) (arr : ndarray) :
  _parse_pc_data loadtxt body md = Ok arr ->
  build_dtype md = Ok (arr_dtype arr).
Proof.
  unfold _parse_pc_data. intros H. inv_bind H. rewrite Ha. f_equal.
  destruct (0 <? points md)%N.
  - destruct (data md); inv_bind H; now inversion H.
  - now inversion H.
Qed.

Lemma from_fileobj_inv (fp : list byte) (pc : PointCloud) :
  from_fileobj fp = Ok pc ->
  parse_header float random_suffix
    (fst (read_header [] (iter_lines fp))) = Ok (metadata pc)
  /\ _parse_pc_data loadtxt (concat (snd (read_header [] (iter_lines fp))))
       (metadata pc) = Ok (pc_data pc).
Proof.
  unfold from_fileobj, Pcd2Csv.from_fileobj.
  destruct (read_header [] (iter_lines fp)) as [lines rest].
  intros H. inv_bind H. inv_bind H. inversion H; subst. simpl. auto.
Qed.

Lemma decoded_names (fp : list byte) (pc : PointCloud) :
  from_fileobj fp = Ok pc ->
  names (arr_dtype (pc_data pc)) = PointCloud_fields pc.
Proof.
  intros H. apply from_fileobj_inv in H. destruct H as [_ H].
  apply parse_pc_data_dtype in H.
  now apply build_dtype_names in H.
Qed.

Lemma decoded_names_nodup (fp : list byte) (pc : PointCloud) :
  from_fileobj fp = Ok pc -> NoDup (names (arr_dtype (pc_data pc))).
Proof.
  intros H. apply from_fileobj_inv in H. destruct H as [_ H].
  apply parse_pc_data_dtype, build_dtype_columns in H.
  destruct H as [_ H]. now apply first_repeated_none in H.
Qed.

(** C6 (amended).  For a decoded cloud with [points > 0], a non-empty
    request of expanded column names returns the dense matrix of those
    columns in the requested order, one row per record; its element type
    is the one [np.vstack] gives the stack (the columns' own type when they
    share one, their promotion otherwise) and each cell is the record's
    value of the column converted to that type, so the cells are the decoded
    values themselves when the requested columns share one type.  A request
    that holds any other name raises [ValueError].  For a decoded cloud
    with [points = 0] every request returns the empty matrix of shape
    (0, number of requested names), whether the names exist or not. *)
Theorem column_selection_by_name
  (fp : list byte) (pc : PointCloud) (req : list string) :
  Pcd2Csv.from_fileobj float random_suffix loadtxt fp = Ok pc ->
  (req <> [] -> points (metadata pc) <> 0%N ->
   (forall f, In f req -> In f (PointCloud_fields pc)) ->
   numpy np_result_type astype pc (Some req)
   = Ok (mkMatrix
           (length (records (pc_data pc)), length req)
           (stacked_type np_result_type (pc_data pc) req)
           (map (fun rec =>
                   map (fun f =>
                          cast astype
                               (column_type (pc_data pc) f)
                               (stacked_type np_result_type (pc_data pc) req)
                               (nth (index (PointCloud_fields pc) f) rec (Int 0)))
                       req)
                (records (pc_data pc))))
   /\ forall t,
        (forall f, In f req -> column_type (pc_data pc) f = t) ->
        numpy np_result_type astype pc (Some req)
        = Ok (mkMatrix
                (length (records (pc_data pc)), length req) t
                (map (fun rec =>
                        map (fun f =>
                               nth (index (PointCloud_fields pc) f) rec (Int 0))
                            req)
                     (records (pc_data pc)))))
  /\ (points (metadata pc) <> 0%N ->
      (exists f, In f req /\ ~ In f (PointCloud_fields pc)) ->
      exists msg,
        numpy np_result_type astype pc (Some req) = Err (ValueError msg))
  /\ (points (metadata pc) = 0%N ->
      numpy np_result_type astype pc (Some req)
      = Ok (mkMatrix (0, length req) float64 [])).
Proof.
  intros Hpc. pose proof (decoded_names _ Hpc) as Hn.
  split; [|split].
  - intros Hreq Hp Hin.
    assert (Hsel : numpy np_result_type astype pc (Some req)
                   = Ok (mkMatrix (length (records (pc_data pc)), length req)
                           (stacked_type np_result_type (pc_data pc) req)
                           (selection (cast astype)
                              (stacked_type np_result_type (pc_data pc) req)
                              (pc_data pc) req))).
    { apply numpy_selected; try assumption. now rewrite Hn. }
    split.
    + rewrite Hsel. unfold selection, column_value. now rewrite Hn.
    + intros t Ht. rewrite Hsel.
      assert (ET : stacked_type np_result_type (pc_data pc) req = t).
      { unfold stacked_type. apply common_type_same.
        - destruct req; [contradiction | discriminate].
        - intros t' Ht'. apply in_map_iff in Ht'.
          destruct Ht' as (f & <- & Hf). now apply Ht. }
      rewrite ET. unfold selection, column_value. rewrite Hn.
      f_equal. f_equal. apply map_ext. intros rec.
      apply map_ext_in. intros f Hf. rewrite (Ht f Hf). apply cast_same.
  - intros Hp Hex. apply numpy_unknown; [assumption|]. now rewrite Hn.
  - apply numpy_empty_cloud.
Qed.

Lemma numpy_all_fields (pc : PointCloud) :
  names (arr_dtype (pc_data pc)) = PointCloud_fields pc ->
  exists m,
    numpy np_result_type astype pc (Some (PointCloud_fields pc)) = Ok m
    /\ (points (metadata pc) <> 0%N -> PointCloud_fields pc <> [] ->
        m = mkMatrix
              (length (records (pc_data pc)), length (PointCloud_fields pc))
              (stacked_type np_result_type (pc_data pc) (PointCloud_fields pc))
              (selection (cast astype)
                 (stacked_type np_result_type (pc_data pc)
                               (PointCloud_fields pc))
                 (pc_data pc) (PointCloud_fields pc)))
    /\ (points (metadata pc) = 0%N \/ PointCloud_fields pc = [] ->
        rows m = []).
Proof.
  intros Hn.
  destruct (PointCloud_fields pc) as [|f0 fs] eqn:Ef.
  - eexists. split; [reflexivity|]. split; [congruence | reflexivity].
  - destruct (N.eq_dec (points (metadata pc)) 0) as [Hp|Hp].
    + eexists. split; [now apply numpy_empty_cloud|].
      split; [contradiction | reflexivity].
    + eexists. split.
      * apply numpy_selected; [discriminate | assumption |].
        intros f Hf. now rewrite Hn.
      * split; [reflexivity|]. intros [H|H]; [contradiction | discriminate].
Qed.


(** The rows handed to the writer for a decoded cloud: the header row,
    then for every record the text of its values of the selected columns
    the cloud has, each converted to the element type of the matrix of all
    columns. *)
Lemma csv_rows_exact (fp : list byte) (pc : PointCloud) :
  from_fileobj fp = Ok pc ->
  pcd_to_csv_rows float random_suffix loadtxt np_result_type astype np_str fp
  = Ok (selected_fields
        :: (if (points (metadata pc) =? 0)%N
               || (length (arr_dtype (pc_data pc)) =? 0)
            then []
            else csv_data (cast astype) np_str
                          (common_type np_result_type
                                       (map snd (arr_dtype (pc_data pc))))
                          (pc_data pc))).
Proof.
  intros Hpc.
  pose proof (decoded_names _ Hpc) as Hn.
  pose proof (decoded_names_nodup _ Hpc) as Hnd.
  destruct (numpy_all_fields _ Hn) as (m & Hm & Hsel & Hnil).
  unfold pcd_to_csv_rows, from_path. fold from_fileobj. rewrite Hpc.
  cbn [bind]. rewrite Hm. cbn [bind]. f_equal. f_equal.
  assert (Hl : length (names (arr_dtype (pc_data pc)))
               = length (arr_dtype (pc_data pc)))
    by (unfold names; now rewrite length_map).
  destruct (N.eqb_spec (points (metadata pc)) 0) as [Hp|Hp]; cbn [orb].
  - rewrite Hnil; [reflexivity | now left].
  - destruct (Nat.eqb_spec (length (arr_dtype (pc_data pc))) 0) as [Hz|Hz].
    + rewrite Hnil; [reflexivity|]. right.
      apply length_zero_iff_nil. congruence.
    + rewrite Hsel; [| assumption |].
      2:{ intros E. rewrite Hn, E in Hl. simpl in Hl. congruence. }
      cbn [mdtype rows]. rewrite <- Hn.
      unfold stacked_type. rewrite (column_types_nodup _ Hnd).
      unfold selection, csv_data. rewrite !map_map.
      apply map_ext. intros rec. rewrite !map_map.
      apply map_ext_in. intros f Hf. f_equal.
      apply filter_In in Hf. destruct Hf as [_ Hf].
      apply contains_In in Hf.
      now rewrite (nth_index_map
                     (fun f => cast astype (column_type (pc_data pc) f) _
                                    (column_value (pc_data pc) f rec))
                     (Int 0) _ _ Hf).
Qed.


End Clouds.

(** *** Independence from the random suffixes *)

Lemma anonymous_cons (c : ascii) (s : string) :
  anonymous (String c s) = if ascii_dec "#" c then true else false.
Proof.
  unfold anonymous, startswith. cbn [prefix].
  destruct (ascii_dec "#" c); [now destruct s | reflexivity].
Qed.

Lemma canon_append (f1 f2 s : string) :
  canon f1 = canon f2 -> canon (f1 ++ s)%string = canon (f2 ++ s)%string.
Proof.
  unfold canon.
  destruct f1 as [|c1 f1], f2 as [|c2 f2]; simpl String.append;
    rewrite ?anonymous_cons.
  - reflexivity.
  - change (anonymous "") with false. cbv iota.
    destruct (ascii_dec "#" c2); discriminate.
  - change (anonymous "") with false. cbv iota.
    destruct (ascii_dec "#" c1); discriminate.
  - destruct (ascii_dec "#" c1) as [E1|N1], (ascii_dec "#" c2) as [E2|N2];
      intros H; try reflexivity.
    + inversion H; subst. contradiction.
    + inversion H; subst. contradiction.
    + inversion H; subst. reflexivity.
Qed.

Lemma canon_expand (f1 f2 : string) (c : positive) :
  canon f1 = canon f2 -> map canon (expand f1 c) = map canon (expand f2 c).
Proof.
  intros H. unfold expand. destruct (c =? 1)%positive; simpl.
  - now rewrite H.
  - rewrite !map_map. apply map_ext. intros i. now apply canon_append.
Qed.

Lemma eqb_canon (y s : string) :
  anonymous s = false -> String.eqb (canon y) s = String.eqb y s.
Proof.
  intros Hs. unfold canon. destruct (anonymous y) eqn:Hy; [|reflexivity].
  destruct (String.eqb_spec y s) as [->|_]; [congruence|].
  destruct (String.eqb_spec "#" s) as [<-|_]; [discriminate Hs | reflexivity].
Qed.

Lemma index_canon (l : list string) (s : string) :
  anonymous s = false -> index (map canon l) s = index l s.
Proof.
  intros Hs. induction l as [|y l IH]; simpl; [reflexivity|].
  now rewrite (@eqb_canon y s Hs), IH.
Qed.

Lemma contains_canon (l : list string) (s : string) :
  anonymous s = false -> contains (map canon l) s = contains l s.
Proof.
  intros Hs. unfold contains. induction l as [|y l IH]; simpl; [reflexivity|].
  now rewrite (String.eqb_sym s (canon y)), (@eqb_canon y s Hs),
    (String.eqb_sym y s), IH.
Qed.

Lemma unpack_types (dt1 : dtype) :
  forall dt2 rec,
    map snd dt1 = map snd dt2 -> unpack dt1 rec = unpack dt2 rec.
Proof.
  induction dt1 as [|[n1 t1] dt1 IH]; intros [|[n2 t2] dt2] rec H;
    simpl in H; try discriminate; [reflexivity|].
  inversion H; subst. simpl. f_equal. now apply IH.
Qed.

Lemma itemsize_types (dt1 dt2 : dtype) :
  map snd dt1 = map snd dt2 -> itemsize dt1 = itemsize dt2.
Proof.
  intros H. unfold itemsize.
  rewrite <- (map_map snd np_itemsize dt1), <- (map_map snd np_itemsize dt2).
  now rewrite H.
Qed.

Lemma frombuffer_types (dt1 dt2 : dtype) (buffer : list byte) :
  map snd dt1 = map snd dt2 -> frombuffer buffer dt1 = frombuffer buffer dt2.
Proof.
  intros H. unfold frombuffer. rewrite (itemsize_types _ _ H).
  destruct (itemsize dt2 =? 0); [reflexivity|].
  destruct (length buffer mod itemsize dt2 =? 0); [|reflexivity].
  f_equal. apply map_ext. intros rec. now apply unpack_types.
Qed.

Lemma erase_dtype_types (dt : dtype) : map snd (erase_dtype dt) = map snd dt.
Proof. unfold erase_dtype. rewrite map_map. reflexivity. Qed.

Lemma erase_dtype_names (dt : dtype) :
  names (erase_dtype dt) = map canon (names dt).
Proof. unfold erase_dtype, names. now rewrite !map_map. Qed.

Lemma erase_dtype_app (a b : dtype) :
  erase_dtype (a ++ b) = erase_dtype a ++ erase_dtype b.
Proof. apply map_app. Qed.

Lemma erase_dtype_same_type (t : np_type) (l : list string) :
  erase_dtype (map (fun name => (name, t)) l)
  = map (fun name => (name, t)) (map canon l).
Proof. unfold erase_dtype. now rewrite !map_map. Qed.

Section Runs.

Variable float : string -> result Q.
Variable loadtxt : list byte -> list np_type -> result (list (list scalar)).
Variable np_result_type : list np_type -> np_type.
Variable astype : np_type -> np_type -> scalar -> scalar.
Variable np_str : np_type -> scalar -> string.

(** Two runs, with their own draws. *)
Variables suffix1 suffix2 : nat -> string.

Lemma rename_anonymous_erased (value : list string) :
  forall draws,
    map canon (fst (rename_anonymous suffix1 draws value))
    = map canon (fst (rename_anonymous suffix2 draws value))
    /\ snd (rename_anonymous suffix1 draws value)
       = snd (rename_anonymous suffix2 draws value).
Proof.
  induction value as [|s value IH]; intros draws; simpl; [auto|].
  destruct (String.eqb s "_").
  - destruct (IH (S draws)) as [H1 H2].
    destruct (rename_anonymous suffix1 (S draws) value),
             (rename_anonymous suffix2 (S draws) value).
    cbn [fst snd map] in *. split; [|assumption].
    change (canon ("#$%&~~" ++ suffix1 draws)%string) with "#"%string.
    change (canon ("#$%&~~" ++ suffix2 draws)%string) with "#"%string.
    now f_equal.
  - destruct (IH draws) as [H1 H2].
    destruct (rename_anonymous suffix1 draws value),
             (rename_anonymous suffix2 draws value).
    cbn [fst snd map] in *. split; [|assumption]. now f_equal.
Qed.

Lemma parse_line_erased (st1 st2 : header_dict * nat) (line : string) :
  erase_state st1 = erase_state st2 ->
  result_map erase_state (parse_line float suffix1 st1 line)
  = result_map erase_state (parse_line float suffix2 st2 line).
Proof.
  destruct st1 as [h1 d1], st2 as [h2 d2].
  destruct h1 as [f1 s1 t1 c1 p1 w1 ht1 v1 vp1 dt1],
           h2 as [f2 s2 t2 c2 p2 w2 ht2 v2 vp2 dt2].
  unfold erase_state, erase_header. simpl.
  intros H. injection H as Hf -> -> -> -> -> -> -> -> -> ->.
  unfold parse_line. cbn [h_fields h_size h_type h_count h_points h_width
                          h_height h_version h_viewpoint h_data].
  destruct (startswith line "#" || (String.length line <? 2)).
  { simpl. unfold erase_state, erase_header. simpl. now rewrite Hf. }
  destruct (header_match line) as [[group1 group2]|].
  2:{ simpl. unfold erase_state, erase_header. simpl. now rewrite Hf. }
  pose proof (rename_anonymous_erased (split group2) d2) as [R1 R2].
  repeat match goal with
         | |- context [if String.eqb ?a ?c then _ else _] =>
             destruct (String.eqb a c)
         end;
    repeat match goal with
           | |- context [bind ?r _] => destruct r; cbn [bind result_map]
           end;
    try (destruct (rename_anonymous suffix1 d2 (split group2)),
                  (rename_anonymous suffix2 d2 (split group2)));
    cbn [bind result_map fst snd] in *;
    unfold erase_state, erase_header;
    cbn [fst snd h_fields h_size h_type h_count h_points h_width h_height
         h_version h_viewpoint h_data option_map];
    rewrite ?Hf, ?R1, ?R2; reflexivity.
Qed.

Lemma parse_lines_erased (lines : list string) :
  forall st1 st2,
    erase_state st1 = erase_state st2 ->
    result_map erase_state (parse_lines float suffix1 st1 lines)
    = result_map erase_state (parse_lines float suffix2 st2 lines).
Proof.
  induction lines as [|line lines IH]; intros st1 st2 H;
    cbn [parse_lines result_map].
  - now rewrite H.
  - pose proof (parse_line_erased line H) as Hl.
    destruct (parse_line float suffix1 st1 line) as [s1|e1],
             (parse_line float suffix2 st2 line) as [s2|e2];
      cbn [bind result_map] in *; try discriminate.
    + apply IH. congruence.
    + exact Hl.
Qed.

Lemma validate_erased (h1 h2 : header_dict) :
  erase_header h1 = erase_header h2 ->
  result_map erase_metadata (validate h1)
  = result_map erase_metadata (validate h2).
Proof.
  destruct h1 as [f1 s1 t1 c1 p1 w1 ht1 v1 vp1 dt1],
           h2 as [f2 s2 t2 c2 p2 w2 ht2 v2 vp2 dt2].
  unfold erase_header. simpl.
  intros H. injection H as Hf -> -> -> -> -> -> -> -> ->.
  unfold validate. cbn [h_fields h_size h_type h_count h_points h_width
                        h_height h_version h_viewpoint h_data].
  destruct f1 as [f1|], f2 as [f2|]; simpl in Hf;
    try discriminate; [|reflexivity].
  cbn [validated bind].
  repeat match goal with
         | |- context [bind (validated ?o) _] =>
             destruct (validated o); cbn [bind result_map]; [|reflexivity]
         end.
  unfold erase_metadata. simpl. congruence.
Qed.

Lemma parse_header_erased (lines : list string) :
  result_map erase_metadata (parse_header float suffix1 lines)
  = result_map erase_metadata (parse_header float suffix2 lines).
Proof.
  unfold parse_header.
  pose proof (@parse_lines_erased lines (empty_header, 0) (empty_header, 0)
                eq_refl) as H.
  destruct (parse_lines float suffix1 (empty_header, 0) lines) as [s1|e1],
           (parse_lines float suffix2 (empty_header, 0) lines) as [s2|e2];
    cbn [bind result_map] in *; try discriminate; [|congruence].
  apply validate_erased.
  assert (E : erase_state s1 = erase_state s2) by congruence.
  unfold erase_state in E. congruence.
Qed.

Lemma build_columns_erased (md1 md2 : MetaData) :
  erase_metadata md1 = erase_metadata md2 ->
  forall fs1 fs2 i,
    map canon fs1 = map canon fs2 ->
    result_map erase_dtype (build_columns md1 i fs1)
    = result_map erase_dtype (build_columns md2 i fs2).
Proof.
  intros Hmd. unfold erase_metadata in Hmd.
  injection Hmd as _ Hs Ht Hc _ _ _ _ _ _.
  induction fs1 as [|f1 fs1 IH]; intros [|f2 fs2] i Hfs; simpl in Hfs;
    try discriminate; [reflexivity|].
  injection Hfs as Hf Hfs. simpl. rewrite Hs, Ht, Hc.
  destruct (getitem (type md2) i) as [t|e]; [|reflexivity]. cbn [bind].
  destruct (getitem (size md2) i) as [s|e]; [|reflexivity]. cbn [bind].
  destruct (PCD_TYPE_TO_NUMPY_TYPE (t, s)) as [n|]; [|reflexivity]. cbn [bind].
  destruct (getitem (count md2) i) as [c|e]; [|reflexivity]. cbn [bind].
  specialize (IH fs2 (S i) Hfs).
  destruct (build_columns md1 (S i) fs1) as [r1|e1],
           (build_columns md2 (S i) fs2) as [r2|e2];
    simpl in IH |- *; try discriminate; [|exact IH].
  f_equal. rewrite !erase_dtype_app, !erase_dtype_same_type.
  rewrite (@canon_expand f1 f2 c Hf). f_equal. now inversion IH.
Qed.

Lemma parse_pc_data_erased
  (body : list byte) (md1 md2 : MetaData) (a1 a2 : ndarray) :
  erase_metadata md1 = erase_metadata md2 ->
  _parse_pc_data loadtxt body md1 = Ok a1 ->
  _parse_pc_data loadtxt body md2 = Ok a2 ->
  records a1 = records a2
  /\ erase_dtype (arr_dtype a1) = erase_dtype (arr_dtype a2).
Proof.
  intros Hmd H1 H2.
  pose proof (parse_pc_data_dtype _ _ _ H1) as D1.
  pose proof (parse_pc_data_dtype _ _ _ H2) as D2.
  assert (He : erase_dtype (arr_dtype a1) = erase_dtype (arr_dtype a2)).
  { apply build_dtype_columns in D1, D2.
    destruct D1 as [C1 _], D2 as [C2 _].
    assert (Hfs : map canon (fields md1) = map canon (fields md2))
      by (unfold erase_metadata in Hmd; now injection Hmd).
    pose proof (build_columns_erased Hmd _ _ 0 Hfs) as H.
    rewrite C1, C2 in H. simpl in H. now inversion H. }
  split; [|exact He].
  assert (Hty : map snd (arr_dtype a1) = map snd (arr_dtype a2)).
  { rewrite <- (erase_dtype_types (arr_dtype a1)),
            <- (erase_dtype_types (arr_dtype a2)). now rewrite He. }
  assert (Hp : points md1 = points md2)
    by (unfold erase_metadata in Hmd; now injection Hmd).
  assert (Hd : data md1 = data md2)
    by (unfold erase_metadata in Hmd; now injection Hmd).
  unfold _parse_pc_data in H1, H2. rewrite D1 in H1. rewrite D2 in H2.
  cbn [bind] in H1, H2. rewrite Hp, Hd in H1.
  destruct (0 <? points md2)%N.
  - destruct (data md2).
    + rewrite Hty in H1.
      destruct (loadtxt body (map snd (arr_dtype a2))); [|discriminate].
      cbn [bind] in H1, H2. inversion H1. inversion H2. reflexivity.
    + rewrite (itemsize_types _ _ Hty),
              (frombuffer_types _ _ _ Hty) in H1.
      destruct (frombuffer _ (arr_dtype a2)); [|discriminate].
      cbn [bind] in H1, H2. inversion H1. inversion H2. reflexivity.
  - inversion H1. inversion H2. reflexivity.
Qed.

Lemma selected_fields_plain :
  forall f, In f selected_fields -> anonymous f = false.
Proof.
  intros f Hf. unfold selected_fields in Hf. simpl in Hf.
  repeat (destruct Hf as [<-|Hf]; [reflexivity|]). destruct Hf.
Qed.

(** The rows written for a decoded cloud. *)
Lemma csv_rows_of_cloud (suffix : nat -> string) (fp : list byte)
  (out : list (list string)) :
  pcd_to_csv_rows float suffix loadtxt np_result_type astype np_str fp = Ok out ->
  exists pc,
    from_fileobj float suffix loadtxt fp = Ok pc
    /\ out
       = selected_fields
         :: (if (points (metadata pc) =? 0)%N
                || (length (arr_dtype (pc_data pc)) =? 0)
             then []
             else csv_data (cast astype) np_str
                           (common_type np_result_type
                                        (map snd (arr_dtype (pc_data pc))))
                           (pc_data pc)).
Proof.
  intros H. pose proof H as H'.
  unfold pcd_to_csv_rows, from_path in H'.
  destruct (from_fileobj float suffix loadtxt fp) as [pc|e] eqn:Hpc;
    [|discriminate].
  exists pc. split; [reflexivity|].
  rewrite (@csv_rows_exact float suffix loadtxt np_result_type astype np_str
             fp pc Hpc) in H.
  now inversion H.
Qed.

(** C8 (amended).  Two runs of the conversion on the same input bytes that
    both succeed write byte-identical CSV output, whatever suffixes each
    run drew for the anonymous fields. *)
Theorem successful_runs_write_same_csv (fp : list byte) (out1 out2 : string) :
  pcd_to_csv float suffix1 loadtxt np_result_type astype np_str fp = Ok out1 ->
  pcd_to_csv float suffix2 loadtxt np_result_type astype np_str fp = Ok out2 ->
  out1 = out2.
Proof.
  unfold pcd_to_csv. intros H1 H2. inv_bind H1. inv_bind H2.
  inversion H1; inversion H2; subst; clear H1 H2. f_equal. f_equal.
  apply csv_rows_of_cloud in Ha, Ha0.
  destruct Ha as (pc1 & Hpc1 & ->), Ha0 as (pc2 & Hpc2 & ->).
  apply from_fileobj_inv in Hpc1, Hpc2.
  destruct Hpc1 as [Hh1 Hd1], Hpc2 as [Hh2 Hd2].
  pose proof (parse_header_erased (fst (read_header [] (iter_lines fp)))) as Hmd.
  rewrite Hh1, Hh2 in Hmd. cbn [result_map] in Hmd.
  assert (Hmd' : erase_metadata (metadata pc1) = erase_metadata (metadata pc2))
    by congruence.
  clear Hmd. rename Hmd' into Hmd.
  destruct (@parse_pc_data_erased _ _ _ _ _ Hmd Hd1 Hd2) as [Hrec Hdt].
  assert (Hty : map snd (arr_dtype (pc_data pc1))
                = map snd (arr_dtype (pc_data pc2))).
  { rewrite <- (erase_dtype_types (arr_dtype (pc_data pc1))),
            <- (erase_dtype_types (arr_dtype (pc_data pc2))).
    now rewrite Hdt. }
  assert (Hnm : map canon (names (arr_dtype (pc_data pc1)))
                = map canon (names (arr_dtype (pc_data pc2)))).
  { rewrite <- !erase_dtype_names. now rewrite Hdt. }
  assert (Hlen : length (arr_dtype (pc_data pc1))
                 = length (arr_dtype (pc_data pc2))).
  { rewrite <- (length_map snd (arr_dtype (pc_data pc1))),
            <- (length_map snd (arr_dtype (pc_data pc2))). now rewrite Hty. }
  assert (Hp : points (metadata pc1) = points (metadata pc2))
    by (unfold erase_metadata in Hmd; now injection Hmd).
  assert (Hfil :
    filter (contains (names (arr_dtype (pc_data pc1)))) selected_fields
    = filter (contains (names (arr_dtype (pc_data pc2)))) selected_fields).
  { apply filter_ext_in. intros f Hf.
    pose proof (@selected_fields_plain f Hf) as Hplain.
    now rewrite <- (@contains_canon _ f Hplain), Hnm, (@contains_canon _ f Hplain). }
  assert (Hidx : forall f,
    In f (filter (contains (names (arr_dtype (pc_data pc2)))) selected_fields) ->
    index (names (arr_dtype (pc_data pc1))) f
    = index (names (arr_dtype (pc_data pc2))) f).
  { intros f Hf. apply filter_In in Hf. destruct Hf as [Hf _].
    pose proof (@selected_fields_plain f Hf) as Hplain.
    now rewrite <- (@index_canon _ f Hplain), Hnm, (@index_canon _ f Hplain). }
  rewrite Hp, Hlen, Hty. f_equal.
  destruct ((points (metadata pc2) =? 0)%N
            || (length (arr_dtype (pc_data pc2)) =? 0)); [reflexivity|].
  unfold csv_data. rewrite Hrec, Hfil.
  apply map_ext. intros rec. apply map_ext_in. intros f Hf.
  unfold column_type, column_value. now rewrite (Hidx f Hf), Hty.
Qed.

End Runs.

Import PcdSamples.

Open Scope list_scope.
Open Scope nat_scope.

(** Counterexample to C2 as stated: with a stride of one byte, a body one
    byte shorter than [points * stride] decodes, into two records. *)
Lemma short_body_unit_stride_decodes :
  build_dtype byte_metadata = Ok [("i"%string, uint8)]
  /\ length two_bytes + 1
     = N.to_nat (points byte_metadata) * stride byte_metadata
  /\ _parse_pc_data loadtxt_stub two_bytes byte_metadata
     = Ok (mkArray [("i"%string, uint8)] [[Int 97]; [Int 98]]).
Proof. vm_compute. repeat split. Qed.

Lemma binary_decoding_by_stride_witness :
  (exists recs,
     _parse_pc_data loadtxt_stub four_bytes word_metadata
     = Ok (mkArray [("i"%string, uint16)] recs)
     /\ length recs = 2)
  /\ (exists msg,
        _parse_pc_data loadtxt_stub three_bytes word_metadata
        = Err (ValueError msg)).
Proof.
  split.
  - apply (proj1 (proj2 (proj2
             (@binary_decoding_by_stride loadtxt_stub word_metadata
                [("i"%string, uint16)] four_bytes eq_refl eq_refl)))).
    + reflexivity.
    + left. vm_compute. lia.
  - apply (proj2 (proj2 (proj2
             (@binary_decoding_by_stride loadtxt_stub word_metadata
                [("i"%string, uint16)] three_bytes eq_refl eq_refl)))).
    + reflexivity.
    + vm_compute. lia.
Defined.

(** Counterexample to C5 as stated: a header whose four sequences have
    lengths 1, 2, 2, 2 is accepted, and so is one with the unsupported
    pair F2. *)
Lemma ragged_and_unsupported_headers_accepted :
  (exists md,
     parse_header float_stub suffix_fresh ragged_header = Ok md
     /\ length (fields md) = 1 /\ length (size md) = 2
     /\ length (type md) = 2 /\ length (count md) = 2
     /\ is_ok (build_dtype md) = true)
  /\ (exists md,
        parse_header float_stub suffix_fresh half_float_header = Ok md
        /\ type md = [F] /\ size md = [2%positive]
        /\ ~ In (F, 2%positive) supported).
Proof.
  split.
  - eexists. split; [vm_compute; reflexivity|]. vm_compute. repeat split.
  - eexists. split; [vm_compute; reflexivity|].
    split; [reflexivity|]. split; [reflexivity|].
    unfold supported. simpl. intros H.
    repeat (destruct H as [H|H]; [discriminate H|]). destruct H.
Qed.

Lemma header_checks_witness :
  (exists e,
     parse_header float_stub suffix_fresh ["FIELDS x"; "SIZE 4"]%string = Err e)
  /\ (length (fields byte_metadata) <= length (size byte_metadata)
      /\ In (nth 0 (type byte_metadata) F, nth 0 (size byte_metadata) 1%positive)
            supported).
Proof.
  split.
  - apply (proj1 (header_checks float_stub suffix_fresh
                    ["FIELDS x"; "SIZE 4"]%string) "points"%string).
    + vm_compute. tauto.
    + intros l [<-|[<-|[]]]; vm_compute; discriminate.
  - destruct (proj2 (header_checks float_stub suffix_fresh
                       ["FIELDS i"; "SIZE 1"; "TYPE U"; "COUNT 1";
                        "WIDTH 3"; "POINTS 3"]%string)
                byte_metadata [("i"%string, uint8)] eq_refl eq_refl)
      as (H1 & _ & _ & H4).
    split; [exact H1|]. apply H4. vm_compute. lia.
Defined.

Lemma header_reading_is_capped_witness :
  fst (read_header [] (iter_lines late_data_file)) = late_data_lines
  /\ read_header [] (iter_lines late_data_file ++ [two_bytes])
     = (late_data_lines,
        snd (read_header [] (iter_lines late_data_file)) ++ [two_bytes])
  /\ (forall md,
        parse_header float_stub suffix_fresh late_data_lines = Ok md ->
        data md = BINARY)
  /\ exists pc,
       from_fileobj float_stub suffix_fresh loadtxt_stub late_data_file = Ok pc
       /\ data (metadata pc) = BINARY.
Proof.
  assert (E : fst (read_header [] (iter_lines late_data_file)) = late_data_lines)
    by (vm_compute; reflexivity).
  pose proof (header_reading_is_capped float_stub suffix_fresh
                (iter_lines late_data_file) [two_bytes]) as H.
  cbv zeta in H. rewrite E in H. destruct H as (_ & H2 & H3).
  split; [exact E|]. split; [apply H2; reflexivity|]. split.
  - apply H3. intros l Hl. vm_compute in Hl.
    repeat (destruct Hl as [<-|Hl]; [vm_compute; discriminate|]).
    destruct Hl.
  - eexists. split; vm_compute; reflexivity.
Defined.

(** Counterexample to C6 as stated: on a decoded cloud with no points a
    request for a column that does not exist returns an empty matrix. *)
Lemma unknown_column_of_empty_cloud :
  exists pc,
    from_fileobj float_stub suffix_fresh loadtxt_stub empty_cloud_file = Ok pc
    /\ PointCloud_fields pc = ["x"%string]
    /\ numpy result_type_stub astype_stub pc (Some ["intensity"%string])
       = Ok (mkMatrix (0, 1) float64 []).
Proof.
  eexists. split; [vm_compute; reflexivity|].
  split; vm_compute; reflexivity.
Qed.

Lemma column_selection_by_name_witness :
  (exists pc,
     from_fileobj float_stub suffix_fresh loadtxt_stub xyz_file = Ok pc
     /\ numpy result_type_stub astype_stub pc (Some ["z"; "x"]%string)
        = Ok (mkMatrix (2, 2) uint8 [[Int 99; Int 97]; [Int 102; Int 100]])
     /\ exists msg,
          numpy result_type_stub astype_stub pc
                (Some ["z"; "intensity"]%string) = Err (ValueError msg))
  /\ (exists pc,
        from_fileobj float_stub suffix_fresh loadtxt_stub mixed_file = Ok pc
        /\ numpy result_type_stub astype_stub pc
                 (Some ["intensity"; "x"]%string)
           = Ok (mkMatrix (1, 2) uint16 [[Int 25442; Int 97]])).
Proof.
  split.
  - destruct (from_fileobj float_stub suffix_fresh loadtxt_stub xyz_file)
      as [pc|e] eqn:E; [|vm_compute in E; discriminate E].
    exists pc. split; [reflexivity|].
    assert (Hpc : pc = mkPointCloud
                    (mkMetaData ["x"; "y"; "z"]%string [1; 1; 1]%positive
                       [U; U; U] [1; 1; 1]%positive 2 2 1 "0.7"
                       [0; 0; 0; 1; 0; 0; 0]%Q BINARY)
                    (mkArray [("x"%string, uint8); ("y"%string, uint8);
                              ("z"%string, uint8)]
                       [[Int 97; Int 98; Int 99]; [Int 100; Int 101; Int 102]])).
    { vm_compute in E. now inversion E. }
    split.
    + destruct (@column_selection_by_name float_stub suffix_fresh loadtxt_stub
                  result_type_stub astype_stub
                  xyz_file pc ["z"; "x"]%string E) as (H & _ & _).
      destruct H as [_ H].
      * discriminate.
      * subst pc. vm_compute. discriminate.
      * subst pc. intros f [<-|[<-|[]]]; vm_compute; tauto.
      * rewrite (H uint8).
        -- subst pc. vm_compute. reflexivity.
        -- subst pc. intros f [<-|[<-|[]]]; vm_compute; reflexivity.
    + destruct (@column_selection_by_name float_stub suffix_fresh loadtxt_stub
                  result_type_stub astype_stub
                  xyz_file pc ["z"; "intensity"]%string E) as (_ & H & _).
      apply H.
      * subst pc. vm_compute. discriminate.
      * exists "intensity"%string. split; [simpl; tauto|].
        subst pc. vm_compute.
        intros [H1|[H1|[H1|[]]]]; discriminate H1.
  - destruct (from_fileobj float_stub suffix_fresh loadtxt_stub mixed_file)
      as [pc|e] eqn:E; [|vm_compute in E; discriminate E].
    exists pc. split; [reflexivity|].
    assert (Hpc : pc = mkPointCloud
                    (mkMetaData ["x"; "intensity"]%string [1; 2]%positive
                       [U; U] [1; 1]%positive 1 1 1 "0.7"
                       [0; 0; 0; 1; 0; 0; 0]%Q BINARY)
                    (mkArray [("x"%string, uint8); ("intensity"%string, uint16)]
                       [[Int 97; Int 25442]])).
    { vm_compute in E. now inversion E. }
    destruct (@column_selection_by_name float_stub suffix_fresh loadtxt_stub
                result_type_stub astype_stub
                mixed_file pc ["intensity"; "x"]%string E) as (H & _ & _).
    destruct H as [H _].
    + discriminate.
    + subst pc. vm_compute. discriminate.
    + subst pc. intros f [<-|[<-|[]]]; vm_compute; tauto.
    + rewrite H. subst pc. vm_compute. reflexivity.
Defined.


(** Counterexample to C8 as stated: on the same bytes, a run whose two
    anonymous fields draw the same suffix fails in [np.dtype], a run with
    distinct suffixes writes the CSV. *)
Lemma repeated_suffix_changes_outcome :
  pcd_to_csv float_stub suffix_repeating loadtxt_stub
             result_type_stub astype_stub str_stub padded_file
  = Err (ValueError "field '#$%&~~aaaaaa' occurs more than once")
  /\ pcd_to_csv float_stub suffix_fresh loadtxt_stub
                result_type_stub astype_stub str_stub padded_file
     = Ok ("x,y,z,intensity" ++ crlf ++ "97" ++ crlf)%string.
Proof. split; vm_compute; reflexivity. Qed.

Lemma successful_runs_write_same_csv_witness :
  pcd_to_csv float_stub suffix_fresh loadtxt_stub
             result_type_stub astype_stub str_stub padded_file
  = Ok ("x,y,z,intensity" ++ crlf ++ "97" ++ crlf)%string
  /\ pcd_to_csv float_stub suffix_other loadtxt_stub
                result_type_stub astype_stub str_stub padded_file
     = pcd_to_csv float_stub suffix_fresh loadtxt_stub
                  result_type_stub astype_stub str_stub padded_file.
Proof.
  assert (H1 : pcd_to_csv float_stub suffix_fresh loadtxt_stub
                 result_type_stub astype_stub str_stub padded_file
               = Ok ("x,y,z,intensity" ++ crlf ++ "97" ++ crlf)%string)
    by (vm_compute; reflexivity).
  split; [exact H1|].
  destruct (pcd_to_csv float_stub suffix_other loadtxt_stub
              result_type_stub astype_stub str_stub
              padded_file) as [out2|e] eqn:H2;
    [|vm_compute in H2; discriminate H2].
  rewrite H1. f_equal.
  exact (@successful_runs_write_same_csv float_stub loadtxt_stub
           result_type_stub astype_stub str_stub
           suffix_other suffix_fresh padded_file _ _ H2 H1).
Defined.

End Pcd2CsvTheory.

(** ** Further properties of the canopy-metrics script *)

Module CropParametersExtra.

Import CropParameters Notions Samples CropParametersTheory.

Open Scope Q_scope.

(** *** Sorting and order statistics *)





















(** *** The reported metrics *)











Section Pipeline.

Variable Real : Type.
Variable pca_last_component : list (Q * Q * Q) -> Real * Real * Real.
Variable neg_dot : Real * Real * Real -> Q * Q * Q -> Real.


End Pipeline.





End CropParametersExtra.

(** ** Further properties of the canopy-metrics script in float64 *)

Module CropParametersFloatExtra.

Import PrimFloat SpecFloat FloatOps FloatAxioms.
Import CropParametersFloat FloatSamples.

Open Scope float_scope.

(** *** Not-a-number in float64 arithmetic *)


Lemma leb_nan_r (x : float) : (x <=? nan) = false.
Proof.
  rewrite leb_spec. change (Prim2SF nan) with S754_nan.
  unfold SFleb. destruct (Prim2SF x); reflexivity.
Qed.

Lemma add_nan_l (y : float) : nan + y = nan.
Proof. apply Prim2SF_inj. rewrite add_spec. reflexivity. Qed.

Lemma add_nan_r (x : float) : x + nan = nan.
Proof.
  apply Prim2SF_inj. rewrite add_spec. change (Prim2SF nan) with S754_nan.
  destruct (Prim2SF x); reflexivity.
Qed.

Lemma sub_nan_l (y : float) : nan - y = nan.
Proof. apply Prim2SF_inj. rewrite sub_spec. reflexivity. Qed.

Lemma sub_nan_r (x : float) : x - nan = nan.
Proof.
  apply Prim2SF_inj. rewrite sub_spec. change (Prim2SF nan) with S754_nan.
  destruct (Prim2SF x); reflexivity.
Qed.

Lemma mul_nan_r (x : float) : x * nan = nan.
Proof.
  apply Prim2SF_inj. rewrite mul_spec. change (Prim2SF nan) with S754_nan.
  destruct (Prim2SF x); reflexivity.
Qed.

Lemma filter_none (A : Type) (f : A -> bool) (l : list A) :
  (forall x, f x = false) -> filter f l = [].
Proof.
  intros H. induction l as [|a l IH]; [reflexivity|].
  simpl. now rewrite H.
Qed.


Section Pipeline.

Variable File : Type.
Variable np_loadtxt : File -> result ndarray.
Variable np_min : list float -> float.
Variable np_max : list float -> float.
Variable np_percentile : list float -> float -> float.
Variable np_mean : list float -> float.
Variable np_mean_axis0 : list (float * float * float) -> float * float * float.
Variable Normal : Type.
Variable pca_last_component : list (float * float * float) -> result Normal.
Variable np_dot : Normal -> float * float * float -> float.

Local Notation load := (load_txt_point_cloud np_loadtxt).
Local Notation estimate :=
  (estimate_ground np_min np_max np_percentile np_mean_axis0
                   pca_last_component np_dot).
Local Notation calculate :=
  (calculate_plant_height_and_plot np_loadtxt np_min np_max np_percentile
     np_mean np_mean_axis0 pca_last_component np_dot).

(** X15.  When one of the three reductions behind the ground threshold,
    [np.min(Z)], [np.max(X)] or [np.min(X)], is NaN, the threshold is NaN,
    no point is a ground candidate, and the run ends in the [ValueError]
    for insufficient ground points. *)
Theorem nan_threshold_stops_the_run (txt_file : File) (points : list point) :
  load txt_file = Ok points ->
  points <> [] ->
  np_min (map pZ points) = nan
  \/ np_max (map pX points) = nan
  \/ np_min (map pX points) = nan ->
  ground_points
    (ground_threshold (np_min (map pZ points))
       (np_max (map pX points) - np_min (map pX points)))
    points = []
  /\ estimate points
     = Err (ValueError "Insufficient ground points to fit plane.")
  /\ calculate txt_file
     = Err (ValueError "Insufficient ground points to fit plane.").
Proof.
  intros Hload Hne Hnan.
  assert (Ht : ground_threshold (np_min (map pZ points))
                 (np_max (map pX points) - np_min (map pX points)) = nan).
  { unfold ground_threshold.
    destruct Hnan as [E|[E|E]]; rewrite E.
    - apply add_nan_l.
    - now rewrite sub_nan_l, mul_nan_r, add_nan_r.
    - now rewrite sub_nan_r, mul_nan_r, add_nan_r. }
  assert (Hg : ground_points
                 (ground_threshold (np_min (map pZ points))
                    (np_max (map pX points) - np_min (map pX points)))
                 points = []).
  { rewrite Ht. unfold ground_points. apply filter_none.
    intros p. apply leb_nan_r. }
  assert (He : estimate points
               = Err (ValueError "Insufficient ground points to fit plane.")).
  { destruct points as [|p points]; [contradiction|].
    unfold estimate_ground, amin, amax. cbn [map bind].
    cbn [map] in Hg. now rewrite Hg. }
  split; [exact Hg|]. split; [exact He|].
  unfold calculate_plant_height_and_plot. rewrite Hload. cbn [bind].
  now rewrite He.
Qed.

(** X17.  Only the first four columns of the table are used: two files
    whose two-dimensional tables have at least four columns and agree on
    the first four columns of every row give the same printed output and
    the same returned value, or the same error. *)
Theorem columns_after_the_fourth_are_ignored
  (file1 file2 : File) (k1 k2 : nat) (rows1 rows2 : list (list float)) :
  np_loadtxt file1 = Ok (Array2 k1 rows1) ->
  np_loadtxt file2 = Ok (Array2 k2 rows2) ->
  (4 <= k1)%nat -> (4 <= k2)%nat ->
  map (firstn 4) rows1 = map (firstn 4) rows2 ->
  calculate file1 = calculate file2.
Proof.
  intros H1 H2 Hk1 Hk2 Hrows.
  assert (Hp : forall row, row_point row = row_point (firstn 4 row)).
  { intros [|a [|b [|c [|d row]]]]; reflexivity. }
  assert (Hpts : map row_point rows1 = map row_point rows2).
  { rewrite (map_ext _ _ Hp rows1), (map_ext _ _ Hp rows2).
    rewrite <- (map_map (firstn 4) row_point rows1),
            <- (map_map (firstn 4) row_point rows2).
    now rewrite Hrows. }
  unfold calculate_plant_height_and_plot, load_txt_point_cloud.
  rewrite H1, H2. cbn [bind].
  destruct (Nat.leb_spec k1 3) as [C|_]; [lia|].
  destruct (Nat.leb_spec k2 3) as [C|_]; [lia|].
  cbn [bind]. now rewrite Hpts.
Qed.

End Pipeline.

Lemma nan_threshold_stops_the_run_witness :
  fold_min (map pZ (points_of canopy_with_gap)) = nan
  /\ calculate canopy_with_gap
     = Err (ValueError "Insufficient ground points to fit plane.").
Proof.
  assert (E : fold_min (map pZ (points_of canopy_with_gap)) = nan)
    by (vm_compute; reflexivity).
  split; [exact E|].
  apply (@nan_threshold_stops_the_run ndarray loaded fold_min fold_max
           percentile mean mean_axis0 _ horizontal dot
           canopy_with_gap (points_of canopy_with_gap)).
  - reflexivity.
  - discriminate.
  - left. exact E.
Defined.

Lemma columns_after_the_fourth_are_ignored_witness :
  calculate canopy_with_time = calculate canopy
  /\ exists r,
       calculate canopy_with_time
       = Ok (Printed r, NpFloat (percentile [0; 0; 0; 0.125; 1; 2] 99.5)).
Proof.
  split.
  - apply (@columns_after_the_fourth_are_ignored ndarray loaded fold_min
             fold_max percentile mean mean_axis0 _ horizontal dot
             canopy_with_time canopy 5 4 _ _ eq_refl eq_refl).
    + lia.
    + lia.
    + vm_compute. reflexivity.
  - eexists. vm_compute. reflexivity.
Defined.

End CropParametersFloatExtra.

(** ** Further properties of the converter *)

Module Pcd2CsvExtra.

Import Pcd2Csv Notions PcdSamples Pcd2CsvTheory.

Open Scope list_scope.
Open Scope nat_scope.

(** *** Record layout *)

Lemma build_columns_length (md : MetaData) (fs : list string) :
  forall i cols,
    build_columns md i fs = Ok cols ->
    length cols = list_sum (map (field_count md) (seq i (length fs))).
Proof.
  induction fs as [|f fs IH]; intros i cols H; simpl in H.
  - now inversion H.
  - inv_bind H. inv_bind H. inv_bind H. inv_bind H. inv_bind H.
    inversion H; subst cols; clear H.
    apply getitem_ok in Ha2.
    rewrite length_app, length_map, expand_length, (IH _ _ Ha3).
    simpl. f_equal. unfold field_count.
    now rewrite (nth_error_nth _ _ _ Ha2).
Qed.

(** X6.  When the layout builds, its column names are exactly the names
    [PointCloud.fields] computes from the header, and it has
    [count[i]] columns for each header field. *)
Theorem layout_names_are_the_cloud_fields (pc : PointCloud) (dt : dtype) :
  build_dtype (metadata pc) = Ok dt ->
  names dt = PointCloud_fields pc
  /\ length dt
     = list_sum (map (field_count (metadata pc))
                     (seq 0 (length (fields (metadata pc))))).
Proof.
  intros H. split.
  - now apply build_dtype_names in H.
  - apply build_dtype_columns in H. destruct H as [H _].
    now apply build_columns_length in H.
Qed.

Lemma first_repeated_some (names : list string) :
  forall seen n, first_repeated seen names = Some n -> In n names.
Proof.
  induction names as [|x names IH]; intros seen n H; simpl in H;
    [discriminate|].
  destruct (existsb (String.eqb x) seen).
  - inversion H. now left.
  - right. now apply IH in H.
Qed.

Lemma first_repeated_nodup (names : list string) :
  forall seen,
    NoDup names -> (forall x, In x names -> ~ In x seen) ->
    first_repeated seen names = None.
Proof.
  induction names as [|n ns IH]; intros seen Hnd Hdis; simpl; [reflexivity|].
  inversion Hnd as [|? ? Hn Hns]; subst.
  destruct (existsb (String.eqb n) seen) eqn:E.
  - exfalso. apply (Hdis n (or_introl eq_refl)).
    apply contains_In. unfold contains. exact E.
  - apply IH; [assumption|].
    intros x Hx [<-|Hs]; [contradiction|].
    apply (Hdis x); [now right | assumption].
Qed.

(** X7.  Given that every field has its type, size and count, the layout
    builds exactly when the expanded column names are pairwise distinct;
    otherwise [np.dtype] raises [ValueError] naming a repeated column. *)
Theorem layout_requires_distinct_names
  (md : MetaData) (cols : list (string * np_type)) :
  build_columns md 0 (fields md) = Ok cols ->
  (NoDup (names cols) <-> build_dtype md = Ok cols)
  /\ (~ NoDup (names cols) ->
      exists n,
        In n (names cols)
        /\ build_dtype md
           = Err (ValueError ("field '" ++ n ++ "' occurs more than once")%string)).
Proof.
  intros Hc. unfold build_dtype. rewrite Hc. cbn [bind]. unfold np_dtype.
  fold (names cols).
  destruct (first_repeated [] (names cols)) as [n|] eqn:E.
  - assert (Hnd : ~ NoDup (names cols)).
    { intros Hnd. rewrite first_repeated_nodup in E; [discriminate | assumption|].
      intros x _ []. }
    split; [split; [contradiction | discriminate]|].
    intros _. exists n. split; [|reflexivity].
    now apply first_repeated_some in E.
  - apply first_repeated_none in E. destruct E as [Hnd _].
    split; [split; auto | contradiction].
Qed.

Lemma build_columns_step (md : MetaData) (i : nat) (f : string)
  (fs : list string) :
  build_columns md i (f :: fs)
  = (nc <- field_check md i ;;
     rest <- build_columns md (S i) fs ;;
     Ok (map (fun name => (name, fst nc)) (expand f (snd nc)) ++ rest)).
Proof.
  unfold field_check. cbn [build_columns].
  destruct (getitem (type md) i) as [t|e]; [|reflexivity]. cbn [bind].
  destruct (getitem (size md) i) as [s|e]; [|reflexivity]. cbn [bind].
  destruct (PCD_TYPE_TO_NUMPY_TYPE (t, s)) as [n|]; [|reflexivity].
  cbn [bind].
  destruct (getitem (count md) i) as [c|e]; reflexivity.
Qed.

Lemma build_columns_first_error (md : MetaData) (e : exn) (fs : list string) :
  forall i k,
    k < length fs ->
    (forall j, j < k -> is_ok (field_check md (i + j)) = true) ->
    field_check md (i + k) = Err e ->
    build_columns md i fs = Err e.
Proof.
  induction fs as [|f fs IH]; intros i k Hk Hok Hbad; simpl in Hk; [lia|].
  rewrite build_columns_step.
  destruct k as [|k].
  - rewrite Nat.add_0_r in Hbad. now rewrite Hbad.
  - pose proof (Hok 0 ltac:(lia)) as H0. rewrite Nat.add_0_r in H0.
    destruct (field_check md i) as [nc|e0]; [|discriminate]. cbn [bind].
    rewrite (IH (S i) k); [reflexivity | lia | |].
    + intros j Hj. replace (S i + j) with (i + S j) by lia. apply Hok. lia.
    + now replace (S i + k) with (i + S k) by lia.
Qed.

(** A field index is complete when type, size and count are there and
    the (type, size) pair is in the table. *)
Lemma field_check_ok (md : MetaData) (j : nat) :
  (exists t s c,
     nth_error (type md) j = Some t /\ nth_error (size md) j = Some s
     /\ nth_error (count md) j = Some c
     /\ PCD_TYPE_TO_NUMPY_TYPE (t, s) <> None) ->
  is_ok (field_check md j) = true.
Proof.
  intros (t & s & c & Ht & Hs & Hc & Hp). unfold field_check, getitem.
  rewrite Ht. cbn [bind]. rewrite Hs. cbn [bind].
  destruct (PCD_TYPE_TO_NUMPY_TYPE (t, s)); [|contradiction].
  cbn [bind]. now rewrite Hc.
Qed.

(** X8.  [build_dtype] fails at the first header field that is not
    complete: with [IndexError] when the field has no type or no size,
    with [KeyError] when its (type, size) pair is not in the table, and
    with [IndexError] when the pair is supported and the count is missing. *)
Theorem layout_fails_at_first_incomplete_field (md : MetaData) (i : nat) :
  i < length (fields md) ->
  (forall j, j < i ->
     exists t s c,
       nth_error (type md) j = Some t /\ nth_error (size md) j = Some s
       /\ nth_error (count md) j = Some c
       /\ PCD_TYPE_TO_NUMPY_TYPE (t, s) <> None) ->
  (nth_error (type md) i = None \/ nth_error (size md) i = None ->
   build_dtype md = Err IndexError)
  /\ (forall t s,
        nth_error (type md) i = Some t -> nth_error (size md) i = Some s ->
        PCD_TYPE_TO_NUMPY_TYPE (t, s) = None ->
        build_dtype md = Err KeyError)
  /\ (forall t s,
        nth_error (type md) i = Some t -> nth_error (size md) i = Some s ->
        PCD_TYPE_TO_NUMPY_TYPE (t, s) <> None ->
        nth_error (count md) i = None ->
        build_dtype md = Err IndexError).
Proof.
  intros Hi Hok.
  assert (Hfail : forall e, field_check md i = Err e -> build_dtype md = Err e).
  { intros e He. unfold build_dtype.
    rewrite (@build_columns_first_error md e (fields md) 0 i);
      [reflexivity | assumption | | exact He].
    intros j Hj. apply field_check_ok. now apply Hok. }
  split; [|split].
  - intros H. apply Hfail. unfold field_check, getitem.
    destruct (nth_error (type md) i) as [t|]; [|reflexivity]. cbn [bind].
    destruct H as [H|H]; [discriminate | now rewrite H].
  - intros t s Ht Hs Hp. apply Hfail. unfold field_check, getitem.
    rewrite Ht. cbn [bind]. rewrite Hs. cbn [bind]. now rewrite Hp.
  - intros t s Ht Hs Hp Hc. apply Hfail. unfold field_check, getitem.
    rewrite Ht. cbn [bind]. rewrite Hs. cbn [bind].
    destruct (PCD_TYPE_TO_NUMPY_TYPE (t, s)); [|contradiction].
    cbn [bind]. now rewrite Hc.
Qed.

(** *** Binary decoding *)

Lemma unpack_length (dt : dtype) :
  forall rec, length (unpack dt rec) = length dt.
Proof.
  induction dt as [|[n t] dt IH]; intros rec; simpl; [reflexivity|].
  now rewrite IH.
Qed.

Lemma frombuffer_ok (buffer : list byte) (dt : dtype)
  (recs : list (list scalar)) :
  frombuffer buffer dt = Ok recs ->
  0 < itemsize dt
  /\ length recs * itemsize dt = length buffer
  /\ Forall (fun r => length r = length dt) recs.
Proof.
  unfold frombuffer.
  destruct (Nat.eqb_spec (itemsize dt) 0) as [E|N]; [discriminate|].
  destruct (Nat.eqb_spec (length buffer mod itemsize dt) 0) as [M|_];
    [|discriminate].
  intros H. inversion H; subst recs; clear H.
  split; [lia|]. split.
  - rewrite length_map, items_length.
    pose proof (Nat.div_mod_eq (length buffer) (itemsize dt)). lia.
  - apply Forall_forall. intros r Hr. apply in_map_iff in Hr.
    destruct Hr as (b & <- & _). apply unpack_length.
Qed.

Section Decoder.

Variable float : string -> result Q.
Variable random_suffix : nat -> string.
Variable loadtxt : list byte -> list np_type -> result (list (list scalar)).

Lemma binary_records_width
  (md : MetaData) (body : list byte) (arr : ndarray) :
  data md = BINARY ->
  _parse_pc_data loadtxt body md = Ok arr ->
  Forall (fun r => length r = length (arr_dtype arr)) (records arr).
Proof.
  intros Hbin H. unfold _parse_pc_data in H. inv_bind H. rewrite Hbin in H.
  destruct (0 <? points md)%N.
  - inv_bind H. inversion H; subst arr; clear H. cbn [records arr_dtype].
    now apply frombuffer_ok in Ha0.
  - inversion H; subst arr. constructor.
Qed.

Lemma binary_layout_nonempty
  (md : MetaData) (body : list byte) (arr : ndarray) :
  data md = BINARY -> points md <> 0%N ->
  _parse_pc_data loadtxt body md = Ok arr ->
  arr_dtype arr <> [].
Proof.
  intros Hbin Hp H. unfold _parse_pc_data in H. inv_bind H. rewrite Hbin in H.
  destruct (N.ltb_spec 0 (points md)) as [_|Hz]; [|lia].
  inv_bind H. inversion H; subst arr; clear H. cbn [arr_dtype].
  apply frombuffer_ok in Ha0. destruct Ha0 as (Hpos & _).
  intros E. rewrite E in Hpos. unfold itemsize in Hpos. simpl in Hpos. lia.
Qed.

(** X9.  A binary decode never yields more records than the header
    declares, never reads past the body, and every record has one scalar
    per column. *)
Theorem binary_records_are_bounded
  (md : MetaData) (body : list byte) (arr : ndarray) :
  data md = BINARY ->
  _parse_pc_data loadtxt body md = Ok arr ->
  length (records arr) <= N.to_nat (points md)
  /\ length (records arr) * itemsize (arr_dtype arr) <= length body
  /\ Forall (fun r => length r = length (arr_dtype arr)) (records arr).
Proof.
  intros Hbin H.
  split; [|split; [|now apply binary_records_width with md body]].
  - unfold _parse_pc_data in H. inv_bind H. rewrite Hbin in H.
    destruct (0 <? points md)%N.
    + inv_bind H. inversion H; subst arr; clear H. cbn [records].
      apply frombuffer_ok in Ha0. destruct Ha0 as (Hpos & Hlen & _).
      rewrite length_firstn in Hlen.
      assert (Hle : length a0 * itemsize a
                    <= N.to_nat (points md) * itemsize a) by lia.
      now apply Nat.mul_le_mono_pos_r in Hle.
    + inversion H; subst arr. cbn [records length]. lia.
  - unfold _parse_pc_data in H. inv_bind H. rewrite Hbin in H.
    destruct (0 <? points md)%N.
    + inv_bind H. inversion H; subst arr; clear H. cbn [records arr_dtype].
      apply frombuffer_ok in Ha0. destruct Ha0 as (_ & Hlen & _).
      rewrite length_firstn in Hlen. lia.
    + inversion H; subst arr. cbn [records arr_dtype length]. lia.
Qed.


Lemma combine_seq_nth (A B C : Type) (F : A -> B -> C) (d1 : A) (d2 : B)
  (l1 : list A) :
  forall l2 : list B,
    length l1 = length l2 ->
    map (fun j => F (nth j l1 d1) (nth j l2 d2)) (seq 0 (length l1))
    = map (fun p => F (fst p) (snd p)) (combine l1 l2).
Proof.
  induction l1 as [|a l1 IH]; intros [|b l2] Hl; try discriminate;
    [reflexivity|].
  cbn [length seq map combine nth fst snd]. f_equal.
  rewrite <- seq_shift, map_map. apply IH. now injection Hl.
Qed.

Lemma map_snd_combine (A B : Type) (l1 : list A) :
  forall l2 : list B,
    length l1 = length l2 -> map snd (combine l1 l2) = l2.
Proof.
  induction l1 as [|a l1 IH]; intros [|b l2] Hl; try discriminate;
    [reflexivity|].
  cbn [combine map snd]. f_equal. apply IH. now injection Hl.
Qed.

Section Stack.

Variable np_result_type : list np_type -> np_type.
Variable astype : np_type -> np_type -> scalar -> scalar.

(** X11.  For a decoded binary cloud with points, asking [numpy] for all
    fields returns one row per record and one column per layout column,
    with the element type [np.vstack] gives the stack: each row is the
    decoded record with every value converted from its column's type to
    that type, and when all layout columns have one type the rows are the
    decoded records unchanged. *)
Theorem all_fields_matrix_is_the_records (fp : list byte) (pc : PointCloud) :
  from_fileobj float random_suffix loadtxt fp = Ok pc ->
  data (metadata pc) = BINARY ->
  points (metadata pc) <> 0%N ->
  numpy np_result_type astype pc None
  = Ok (mkMatrix
          (length (records (pc_data pc)), length (arr_dtype (pc_data pc)))
          (common_type np_result_type (map snd (arr_dtype (pc_data pc))))
          (map (fun rec =>
                  map (fun tc =>
                         cast astype (fst tc)
                              (common_type np_result_type
                                           (map snd (arr_dtype (pc_data pc))))
                              (snd tc))
                      (combine (map snd (arr_dtype (pc_data pc))) rec))
               (records (pc_data pc))))
  /\ forall t,
       (forall t', In t' (map snd (arr_dtype (pc_data pc))) -> t' = t) ->
       numpy np_result_type astype pc None
       = Ok (mkMatrix
               (length (records (pc_data pc)), length (arr_dtype (pc_data pc)))
               t (records (pc_data pc))).
Proof.
  intros Hpc Hbin Hp.
  pose proof (@decoded_names float random_suffix loadtxt fp pc Hpc) as Hn.
  pose proof (@decoded_names_nodup float random_suffix loadtxt fp pc Hpc)
    as Hnd.
  apply from_fileobj_inv in Hpc. destruct Hpc as [_ Hd].
  pose proof (binary_layout_nonempty _ _ Hbin Hp Hd) as Hne.
  pose proof (binary_records_width _ _ Hbin Hd) as Hall.
  rewrite Forall_forall in Hall.
  assert (Hlen : length (names (arr_dtype (pc_data pc)))
                 = length (arr_dtype (pc_data pc)))
    by (unfold names; now rewrite length_map).
  assert (Hgen :
    numpy np_result_type astype pc None
    = Ok (mkMatrix
            (length (records (pc_data pc)), length (arr_dtype (pc_data pc)))
            (common_type np_result_type (map snd (arr_dtype (pc_data pc))))
            (map (fun rec =>
                    map (fun tc =>
                           cast astype (fst tc)
                                (common_type np_result_type
                                             (map snd (arr_dtype (pc_data pc))))
                                (snd tc))
                        (combine (map snd (arr_dtype (pc_data pc))) rec))
                 (records (pc_data pc))))).
  { unfold numpy. rewrite <- Hn.
    change (match @None (list string) with
            | Some fs => fs
            | None => names (arr_dtype (pc_data pc))
            end) with (names (arr_dtype (pc_data pc))).
    fold (numpy np_result_type astype pc
                (Some (names (arr_dtype (pc_data pc))))).
    rewrite numpy_selected; [| | assumption | auto].
    - unfold stacked_type. rewrite (column_types_nodup _ Hnd), Hlen.
      f_equal. f_equal. unfold selection.
      apply map_ext_in. intros rec Hrec.
      unfold column_type, column_value.
      rewrite <- (map_map (index (names (arr_dtype (pc_data pc))))
                    (fun j => cast astype
                                (nth j (map snd (arr_dtype (pc_data pc))) float64)
                                _ (nth j rec (Int 0)))).
      rewrite (map_index_nodup Hnd), Hlen.
      rewrite <- (length_map snd (arr_dtype (pc_data pc))).
      apply (combine_seq_nth (fun t s => cast astype t _ s)).
      rewrite length_map. symmetry. now apply Hall.
    - intros E. apply Hne. rewrite E in Hlen. simpl in Hlen.
      now apply length_zero_iff_nil. }
  split; [exact Hgen|].
  intros t Ht. rewrite Hgen.
  rewrite (@common_type_same np_result_type t
             (map snd (arr_dtype (pc_data pc)))); [| |exact Ht].
  - f_equal. f_equal.
    rewrite <- (map_id (records (pc_data pc))) at 2.
    apply map_ext_in. intros rec Hrec.
    rewrite <- (@map_snd_combine _ _ (map snd (arr_dtype (pc_data pc))) rec)
      at 2 by (rewrite length_map; symmetry; now apply Hall).
    apply map_ext_in. intros [t' s] Hin. cbn [fst snd].
    apply in_combine_l in Hin. rewrite (Ht t' Hin). apply cast_same.
  - intros E. apply Hne. apply map_eq_nil in E. exact E.
Qed.

End Stack.

End Decoder.

(** *** Header reading and defaults *)

Lemma read_header_shape (fp : list (list byte)) :
  forall acc,
    exists new consumed,
      fst (read_header acc fp) = acc ++ new
      /\ fp = consumed ++ snd (read_header acc fp)
      /\ Forall collectable new
      /\ Forall (fun l => startswith l "DATA" = false) (removelast new).
Proof.
  induction fp as [|bline fp IH]; intros acc; cbn [read_header fst snd].
  - exists [], []. rewrite app_nil_r. repeat split; constructor.
  - destruct (startswith (strip (decode bline)) "#"
              || (String.length (strip (decode bline)) =? 0)) eqn:Skip.
    + destruct (IH acc) as (new & consumed & H1 & H2 & H3 & H4).
      exists new, (bline :: consumed). repeat split; try assumption.
      simpl. now rewrite <- H2.
    + apply orb_false_iff in Skip. destruct Skip as [Hc He].
      assert (Hgood : collectable (strip (decode bline))).
      { split; [|assumption]. intros E. rewrite E in He. discriminate. }
      destruct (startswith (strip (decode bline)) "DATA"
                || (10 <=? length (acc ++ [strip (decode bline)]))) eqn:Stop.
      * exists [strip (decode bline)], [bline]. cbn [fst snd].
        split; [reflexivity|]. split; [reflexivity|].
        split; [constructor; [exact Hgood | constructor] | constructor].
      * apply orb_false_iff in Stop. destruct Stop as [Hd _].
        destruct (IH (acc ++ [strip (decode bline)]))
          as (new & consumed & H1 & H2 & H3 & H4).
        exists (strip (decode bline) :: new), (bline :: consumed).
        split; [now rewrite H1, <- app_assoc|].
        split; [simpl; now rewrite <- H2|].
        split; [now constructor|].
        destruct new as [|n new]; [constructor|].
        change (removelast (strip (decode bline) :: n :: new))
          with (strip (decode bline) :: removelast (n :: new)).
        now constructor.
Qed.

(** X13.  The lines collected by the header reader are stripped, non-empty
    and not comments; a line starting with [DATA] can only be the last one
    collected; and the lines left for the body are a suffix of the file, in
    order and unchanged. *)
Theorem header_reader_stops_at_data (fp : list (list byte)) :
  Forall collectable (fst (read_header [] fp))
  /\ Forall (fun l => startswith l "DATA" = false)
            (removelast (fst (read_header [] fp)))
  /\ exists consumed, fp = consumed ++ snd (read_header [] fp).
Proof.
  destruct (read_header_shape fp []) as (new & consumed & H1 & H2 & H3 & H4).
  simpl in H1. rewrite H1. repeat split; try assumption.
  now exists consumed.
Qed.

Section Header.

Variable float : string -> result Q.
Variable random_suffix : nat -> string.
Variable loadtxt : list byte -> list np_type -> result (list (list scalar)).

Lemma validate_defaults (h : header_dict) (md : MetaData) :
  validate h = Ok md ->
  (present h "height" = false -> height md = 1%N)
  /\ (present h "version" = false -> version md = "0.7"%string)
  /\ (present h "viewpoint" = false ->
      viewpoint md = [0; 0; 0; 1; 0; 0; 0]%Q).
Proof.
  unfold validate. intros H. repeat inv_bind H.
  inversion H; subst md; clear H. cbn [height version viewpoint].
  unfold present. simpl String.eqb. cbv iota.
  split; [|split]; intros Hp.
  - destruct (h_height h); [discriminate|].
    cbn [with_default validated] in Ha5. now inversion Ha5.
  - destruct (h_version h); [discriminate | reflexivity].
  - destruct (h_viewpoint h); [discriminate|].
    cbn [with_default validated] in Ha6. now inversion Ha6.
Qed.

(** X12.  An accepted header that has no [height], [version] or
    [viewpoint] line gets height 1, version "0.7" and the identity
    viewpoint (0, 0, 0, 1, 0, 0, 0). *)
Theorem header_defaults (lines : list string) (md : MetaData) :
  parse_header float random_suffix lines = Ok md ->
  ((forall l, In l lines -> line_key l <> Some "height"%string) ->
   height md = 1%N)
  /\ ((forall l, In l lines -> line_key l <> Some "version"%string) ->
      version md = "0.7"%string)
  /\ ((forall l, In l lines -> line_key l <> Some "viewpoint"%string) ->
      viewpoint md = [0; 0; 0; 1; 0; 0; 0]%Q).
Proof.
  intros H. apply parse_header_inv in H. destruct H as (st & Hp & Hv).
  destruct (validate_defaults _ Hv) as (H1 & H2 & H3).
  split; [|split]; intros Hk;
    [apply H1 | apply H2 | apply H3];
    now rewrite (parse_lines_present _ _ _ _ Hp Hk).
Qed.

End Header.

(** *** Instances *)

Lemma layout_names_are_the_cloud_fields_witness :
  names [("i"%string, uint8)]
  = PointCloud_fields (mkPointCloud byte_metadata (mkArray [] []))
  /\ length [("i"%string, uint8)] = 1.
Proof.
  exact (@layout_names_are_the_cloud_fields
           (mkPointCloud byte_metadata (mkArray [] []))
           [("i"%string, uint8)] eq_refl).
Defined.

Lemma layout_requires_distinct_names_witness :
  NoDup (names [("i"%string, uint8)])
  <-> build_dtype byte_metadata = Ok [("i"%string, uint8)].
Proof.
  exact (proj1 (@layout_requires_distinct_names byte_metadata
                  [("i"%string, uint8)] eq_refl)).
Defined.

Lemma layout_fails_at_first_incomplete_field_witness :
  build_dtype half_float_metadata = Err KeyError.
Proof.
  apply (proj1 (proj2 (@layout_fails_at_first_incomplete_field
                         half_float_metadata 0
                         ltac:(vm_compute; lia)
                         ltac:(intros j Hj; lia)))
           F 2%positive); reflexivity.
Defined.

Lemma binary_records_are_bounded_witness :
  length [[Int 97]; [Int 98]] <= N.to_nat (points byte_metadata)
  /\ length [[Int 97]; [Int 98]] * itemsize [("i"%string, uint8)]
     <= length two_bytes
  /\ Forall (fun r => length r = length [("i"%string, uint8)])
            [[Int 97]; [Int 98]].
Proof.
  exact (@binary_records_are_bounded loadtxt_stub byte_metadata two_bytes
           (mkArray [("i"%string, uint8)] [[Int 97]; [Int 98]])
           eq_refl eq_refl).
Defined.


Lemma all_fields_matrix_is_the_records_witness :
  (exists pc,
     from_fileobj float_stub suffix_fresh loadtxt_stub xyz_file = Ok pc
     /\ numpy result_type_stub astype_stub pc None
        = Ok (mkMatrix (2, 3) uint8
                       [[Int 97; Int 98; Int 99]; [Int 100; Int 101; Int 102]]))
  /\ (exists pc,
        from_fileobj float_stub suffix_fresh loadtxt_stub mixed_file = Ok pc
        /\ numpy result_type_stub astype_stub pc None
           = Ok (mkMatrix (1, 2) uint16 [[Int 97; Int 25442]])).
Proof.
  split.
  - destruct (from_fileobj float_stub suffix_fresh loadtxt_stub xyz_file)
      as [pc|e] eqn:E; [|vm_compute in E; discriminate E].
    exists pc. split; [reflexivity|].
    assert (Hpc : pc = mkPointCloud
                    (mkMetaData ["x"; "y"; "z"]%string [1; 1; 1]%positive
                       [U; U; U] [1; 1; 1]%positive 2 2 1 "0.7"
                       [0; 0; 0; 1; 0; 0; 0]%Q BINARY)
                    (mkArray [("x"%string, uint8); ("y"%string, uint8);
                              ("z"%string, uint8)]
                       [[Int 97; Int 98; Int 99]; [Int 100; Int 101; Int 102]])).
    { vm_compute in E. now inversion E. }
    destruct (@all_fields_matrix_is_the_records float_stub suffix_fresh
                loadtxt_stub result_type_stub astype_stub xyz_file pc E)
      as [_ H]; [subst pc; reflexivity | subst pc; discriminate |].
    rewrite (H uint8).
    + subst pc. reflexivity.
    + subst pc. intros t' [<-|[<-|[<-|[]]]]; reflexivity.
  - destruct (from_fileobj float_stub suffix_fresh loadtxt_stub mixed_file)
      as [pc|e] eqn:E; [|vm_compute in E; discriminate E].
    exists pc. split; [reflexivity|].
    assert (Hpc : pc = mkPointCloud
                    (mkMetaData ["x"; "intensity"]%string [1; 2]%positive
                       [U; U] [1; 1]%positive 1 1 1 "0.7"
                       [0; 0; 0; 1; 0; 0; 0]%Q BINARY)
                    (mkArray [("x"%string, uint8); ("intensity"%string, uint16)]
                       [[Int 97; Int 25442]])).
    { vm_compute in E. now inversion E. }
    destruct (@all_fields_matrix_is_the_records float_stub suffix_fresh
                loadtxt_stub result_type_stub astype_stub mixed_file pc E)
      as [H _]; [subst pc; reflexivity | subst pc; discriminate |].
    rewrite H. subst pc. vm_compute. reflexivity.
Defined.

Lemma header_defaults_witness :
  height half_float_metadata = 1%N
  /\ version half_float_metadata = "0.7"%string.
Proof.
  destruct (@header_defaults float_stub suffix_fresh half_float_header
              half_float_metadata eq_refl) as (H1 & H2 & _).
  split; [apply H1 | apply H2];
    intros l Hl; vm_compute in Hl;
    repeat (destruct Hl as [<-|Hl]; [vm_compute; discriminate|]);
    destruct Hl.
Defined.

End Pcd2CsvExtra.
